(** * The cart / session / order lifecycle of [server.py]

    A shallow embedding of the request handlers of the delivery storefront
    ([handle_add_to_cart], [handle_update_cart], [render_checkout],
    [handle_checkout_post], [send_order_email]) with explicit state
    passing: the session dictionary, the SQLite database, the CSV audit
    file and the SMTP outbox are values threaded through the handlers.

    Conventions.
    - A Python [str] is a [string]; one [ascii] stands for one character
      whose code point is below 256.
    - A Python [int] is a [Z]; a Python [float] is a primitive binary64
      [float].
    - The query dictionary built by [urllib.parse.parse_qs] maps a key to a
      non-empty list of values, kept as its first value and the others. *)

From Stdlib Require Import ZArith List String Ascii Floats Lia.
From stdpp Require Import gmap strings list pretty.

Local Open Scope string_scope.
Local Open Scope list_scope.
Local Open Scope Z_scope.

(** ** Python strings *)

Module PyStr.

(** [str.isspace] on one character, for code points below 256:
    TAB..CR, FS..US and SPACE, NEL (0x85) and NBSP (0xA0). *)
Definition is_space (c : ascii) : bool :=
  let n := Z.of_N (N_of_ascii c) in
  ((9 <=? n) && (n <=? 13)) || ((28 <=? n) && (n <=? 32))
  || (n =? 133) || (n =? 160).

Fixpoint lstrip (s : string) : string :=
  match s with
  | EmptyString => EmptyString
  | String c rest => if is_space c then lstrip rest else s
  end.

Fixpoint rstrip (s : string) : string :=
  match s with
  | EmptyString => EmptyString
  | String c rest =>
      match rstrip rest with
      | EmptyString => if is_space c then EmptyString else String c EmptyString
      | kept => String c kept
      end
  end.

(** [s.strip()] *)
Definition strip (s : string) : string := rstrip (lstrip s).

(** [c * n] for a one-character string [c]; empty when [n <= 0]. *)
Definition repeat_char (c : ascii) (n : Z) : string :=
  string_of_list_ascii (List.repeat c (Z.to_nat n)).

Definition len (s : string) : Z := Z.of_nat (String.length s).

(** [s[-k:]] for [k > 0]: the last [k] characters, all of [s] when it is
    shorter. *)
Definition last_chars (k : nat) (s : string) : string :=
  string_of_list_ascii
    (skipn (String.length s - k)%nat (list_ascii_of_string s)).

(** Truthiness of a string: [not s] holds for the empty string only. *)
Definition falsy (s : string) : bool :=
  match s with EmptyString => true | String _ _ => false end.

(** [sep.join(parts)] *)
Fixpoint join (sep : string) (parts : list string) : string :=
  match parts with
  | [] => ""
  | [p] => p
  | p :: rest => p +:+ sep +:+ join sep rest
  end.

End PyStr.

(** ** Cart lines and the session dictionary *)

(** One entry [{'product_id': ..., 'quantity': ...}] of the cart list. *)
Record cart_line := CartLine { product_id : Z; quantity : Z }.

(** The session dictionary. A fresh session holds the keys ['cart'] and
    ['lang'] only; ['checkout_total'] and ['last_order_total'] appear when a
    handler stores them, and ['cart'] is popped by [handle_update_cart] when
    the cart becomes empty. An absent key is [None]. *)
Record session := Session {
  lang : string;
  cart : option (list cart_line);
  checkout_total : option float;
  last_order_total : option float
}.

(** [SessionManager.get_session]: the dictionary of a newly created session. *)
Definition new_session : session :=
  {| lang := "ar"; cart := Some []; checkout_total := None;
     last_order_total := None |}.

(** [session.get('cart', [])] *)
Definition session_cart (s : session) : list cart_line := default [] (cart s).

Definition ids (c : list cart_line) : list Z := map product_id c.

(** The lines of [c] that are for product [pid]. *)
Definition lines_for (pid : Z) (c : list cart_line) : list cart_line :=
  List.filter (fun item => product_id item =? pid) c.

(** Data-model invariant: at most one line per product id. *)
Definition cart_wf (c : list cart_line) : Prop := NoDup (ids c).

(** What a handler answers. The body of a rendered page goes through the
    HTML templates and is not part of the model. *)
Inductive response :=
| SendError (code : Z) (message : string)
| Redirect (code : Z) (location : string)
| Html (code : Z)
| Unhandled (exn : string).

(** Query dictionary of [parse_qs]: key to (first value, other values). *)
Abbreviation query := (gmap string (string * list string)).

(** [params.get(key, [''])[0]] *)
Definition param (params : query) (key : string) : string :=
  match params !! key with
  | Some (v, _) => v
  | None => ""
  end.

(** [params.get(key, [''])[0].strip()] *)
Definition field (params : query) (key : string) : string :=
  PyStr.strip (param params key).

(** ** Cart operations *)

(** The [for ... else] loop of [handle_add_to_cart]: the first line for
    [pid] gets its quantity incremented; without such a line a new line of
    quantity 1 is appended. *)
Fixpoint cart_add (pid : Z) (c : list cart_line) : list cart_line :=
  match c with
  | [] => [CartLine pid 1]
  | item :: rest =>
      if product_id item =? pid
      then CartLine (product_id item) (quantity item + 1) :: rest
      else item :: cart_add pid rest
  end.

(** [cart = session.setdefault('cart', [])] followed by the loop. *)
Definition add_to_cart (pid : Z) (s : session) : session :=
  {| lang := lang s; cart := Some (cart_add pid (session_cart s));
     checkout_total := checkout_total s;
     last_order_total := last_order_total s |}.

(** The loop of [handle_update_cart] on the first line for [pid]; an action
    other than the three known ones changes nothing. *)
Fixpoint cart_update (pid : Z) (action : string) (c : list cart_line)
  : list cart_line :=
  match c with
  | [] => []
  | item :: rest =>
      if product_id item =? pid then
        if String.eqb action "increase" then
          CartLine (product_id item) (quantity item + 1) :: rest
        else if String.eqb action "decrease" then
          let item' := CartLine (product_id item) (quantity item - 1) in
          if quantity item' <=? 0 then rest else item' :: rest
        else if String.eqb action "remove" then rest
        else item :: rest
      else item :: cart_update pid action rest
  end.

(** The cart part of [handle_update_cart]: the list stored under ['cart'] is
    updated in place, and the key is popped when the list is empty. With no
    ['cart'] key the loop runs over a fresh empty list. *)
Definition update_cart (pid : Z) (action : string) (s : session) : session :=
  let c := cart_update pid action (session_cart s) in
  {| lang := lang s;
     cart := match c with [] => None | _ :: _ => Some c end;
     checkout_total := checkout_total s;
     last_order_total := last_order_total s |}.

Section Handlers.

(** Python's [int(text)]; [None] stands for [ValueError]. *)
Variable py_int : string -> option Z.

Definition handle_add_to_cart (s : session) (params : query)
  : response * session :=
  match params !! "product_id" with
  | None => (SendError 400 "Missing product_id", s)
  | Some (text, _) =>
      match py_int text with
      | None => (SendError 400 "Invalid product_id", s)
      | Some pid =>
          (Redirect 302 ("/products?lang=" +:+ lang s +:+ "&added=1&open_cart=1"),
           add_to_cart pid s)
      end
  end.

Definition handle_update_cart (s : session) (params : query)
  : response * session :=
  match params !! "product_id", params !! "action" with
  | Some (text, _), Some (action, _) =>
      match py_int text with
      | None => (SendError 400 "Invalid product_id", s)
      | Some pid =>
          let s' := update_cart pid action s in
          (Redirect 302
             (match cart_update pid action (session_cart s) with
              | [] => "/products?lang=" +:+ lang s
              | _ :: _ => "/products?lang=" +:+ lang s +:+ "&open_cart=1"
              end),
           s')
      end
  | _, _ => (SendError 400 "Missing parameters", s)
  end.

End Handlers.

(** ** Floats *)

(** Conversion of a Python [int] to [float], as [price * quantity] does on an
    integer operand: round to nearest, ties to even; [None] stands for
    [OverflowError] (the rounded value is out of the binary64 range). *)
Definition int_to_float (n : Z) : option float :=
  match binary_normalize prec emax n 0 false with
  | S754_infinity _ => None
  | sf => Some (SF2Prim sf)
  end.

(** ** The database *)

(** An integer that SQLite can bind as a parameter of a statement (64 bits,
    signed); [sqlite3] raises [OverflowError] on another one. *)
Definition sqlite_int (n : Z) : bool := (- 2 ^ 63 <=? n) && (n <? 2 ^ 63).

(** A row of table [product]; the description and image columns are never
    read by the handlers below. *)
Record product := Product {
  name_fr : string;
  name_en : string;
  name_ar : string;
  price : float
}.

(** A row of table [orders] ([created_at] is filled in by SQLite). *)
Record order_row := OrderRow {
  order_id : Z;
  customer_name : string;
  customer_address : string;
  card_number : string;
  total : float;
  customer_phone : string;
  payment_method : string;
  customer_email : string
}.

(** A row of table [order_items] (without its own row id). *)
Record order_item_row := OrderItemRow {
  item_order_id : Z;
  item_product_id : Z;
  item_quantity : Z;
  item_price : float
}.

(** [orders_seq] is the AUTOINCREMENT counter of table [orders]: the next
    inserted row gets the id [orders_seq + 1] ([cur.lastrowid]). *)
Record database := Database {
  product_table : gmap Z product;
  orders : list order_row;
  orders_seq : Z;
  order_items : list order_item_row
}.

(** A message handed to [server.sendmail]. *)
Record email := Email {
  from_addr : string;
  to_addrs : list string;
  message : string
}.

(** Everything outside the session that a handler can change: the database,
    the audit file [orders.csv] ([None] while the file does not exist, else
    its rows, each a list of fields) and the mails accepted by the SMTP
    server. *)
Record world := World {
  db : database;
  orders_csv : option (list (list string));
  outbox : list email
}.

(** What the process reads from its environment and cannot control: the SMTP
    settings, the vendor address, the clock, and whether the audit file and
    the SMTP connection can be used (when not, the source catches the
    exception and goes on). *)
Record environ := Environ {
  SMTP_SERVER : option string;
  SMTP_USERNAME : option string;
  SMTP_PASSWORD : option string;
  SENDER_EMAIL_VAR : option string;
  VENDOR_EMAIL : option string;
  now : string;
  csv_io_ok : bool;
  smtp_io_ok : bool
}.

(** [not v] for a value that is [None] or a string. *)
Definition unset (v : option string) : bool :=
  match v with
  | None => true
  | Some text => PyStr.falsy text
  end.

(** [a or b] on such values. *)
Definition or_else (a b : option string) : option string :=
  if unset a then b else a.

(** [SENDER_EMAIL = os.environ.get('SENDER_EMAIL') or SMTP_USERNAME] *)
Definition SENDER_EMAIL (env : environ) : option string :=
  or_else (SENDER_EMAIL_VAR env) (SMTP_USERNAME env).

Definition nl : string := String (ascii_of_nat 10) "".
Definition crlf : string := String (ascii_of_nat 13) nl.

(** ** Review: the checkout page *)

(** The pricing loop of [render_checkout]: a line whose product is not in
    the catalog is skipped; [None] when a statement raises [OverflowError]
    (the SELECT on a product id that SQLite cannot bind, or
    [price * quantity] on a quantity out of the float range). *)
Fixpoint review_loop (products : gmap Z product) (c : list cart_line)
    (total_amount : float) : option float :=
  match c with
  | [] => Some total_amount
  | item :: rest =>
      if sqlite_int (product_id item) then
        match products !! product_id item with
        | None => review_loop products rest total_amount
        | Some p =>
            match int_to_float (quantity item) with
            | None => None
            | Some q =>
                let item_total := PrimFloat.mul (price p) q in
                review_loop products rest (PrimFloat.add total_amount item_total)
            end
        end
      else None
  end.

Definition review_total (d : database) (c : list cart_line) : option float :=
  review_loop (product_table d) c 0%float.

(** [render_checkout]: with an empty cart a redirect to the cart page and
    nothing stored; otherwise the total is stored under ['checkout_total'],
    unless the pricing loop raises, which leaves the session as it was. *)
Definition render_checkout (d : database) (s : session) : response * session :=
  match session_cart s with
  | [] => (Redirect 302 ("/cart?lang=" +:+ lang s), s)
  | _ :: _ =>
      match review_total d (session_cart s) with
      | None => (Unhandled "OverflowError", s)
      | Some total_amount =>
          (Html 200,
           {| lang := lang s; cart := cart s;
              checkout_total := Some total_amount;
              last_order_total := last_order_total s |})
      end
  end.

(** ** Submit: the checkout form, the audit row and the mail *)

Section Checkout.

(** The table [translations]: key, then language code, to text. *)
Variable translations : gmap string (gmap string string).

(** [template.format(field=value)]; [None] stands for the exception that
    [str.format] raises on a template it cannot fill. *)
Variable py_format : string -> string -> string -> option string.

(** The format [f"{x:.2f}"]. *)
Variable format_2f : float -> string.

Definition translate (key lang : string) : string :=
  let entry := default ∅ (translations !! key) in
  match or_else (entry !! lang) (entry !! "fr") with
  | Some text => if PyStr.falsy text then key else text
  | None => key
  end.

(** The column [name_{lang}], [name_fr] for an unknown language. *)
Definition name_in (lang : string) (p : product) : string :=
  if String.eqb lang "fr" then name_fr p
  else if String.eqb lang "en" then name_en p
  else if String.eqb lang "ar" then name_ar p
  else name_fr p.

(** The item lines of the mail; [None] when the SELECT on the product id or
    [price * quantity] raises. *)
Fixpoint email_lines (products : gmap Z product) (lang : string)
    (order_items : list cart_line) : option (list string) :=
  match order_items with
  | [] => Some []
  | item :: rest =>
      if sqlite_int (product_id item) then
        match products !! product_id item with
        | None => email_lines products lang rest
        | Some p =>
            match int_to_float (quantity item) with
            | None => None
            | Some q =>
                let item_total := PrimFloat.mul (price p) q in
                let line := "- " +:+ name_in lang p +:+ " x "
                            +:+ pretty (quantity item) +:+ ": "
                            +:+ format_2f item_total +:+ " TND" in
                match email_lines products lang rest with
                | None => None
                | Some lines => Some (line :: lines)
                end
            end
        end
      else None
  end.

(** ['*' * (len(card_number) - 4) + card_number[-4:] if card_number else ''] *)
Definition mask_card (card_number : string) : string :=
  if PyStr.falsy card_number then ""
  else PyStr.repeat_char "*" (PyStr.len card_number - 4)
       +:+ PyStr.last_chars 4 card_number.

Definition payment_info (payment_method card_number : string) : string :=
  nl +:+ "Payment method: " +:+ payment_method +:+ nl
  +:+ (if String.eqb payment_method "card"
       then "Card: " +:+ mask_card card_number +:+ nl
       else "Payable on delivery" +:+ nl).

(** [send_order_email]. The result is [None] when an exception leaves the
    function, else the messages accepted by the SMTP server: none when the
    settings or the customer address are missing or when the SMTP exchange
    fails (that exception is caught inside). *)
Definition send_order_email (env : environ) (d : database)
    (customer_email customer_name : string) (vendor_email : option string)
    (order_items : list cart_line) (total : float)
    (payment_method card_number phone address lang : string)
  : option (list email) :=
  if PyStr.falsy customer_email || unset (SMTP_SERVER env)
     || unset (SMTP_USERNAME env) || unset (SMTP_PASSWORD env)
     || unset (SENDER_EMAIL env)
  then Some []
  else
    lines ← email_lines (product_table d) lang order_items;
    let items_block := PyStr.join nl lines in
    let subject := translate "email_subject" lang in
    body_intro ← py_format (translate "email_body_intro" lang) "name" customer_name;
    body_total ← py_format (translate "email_body_total" lang) "total"
                           (format_2f total);
    let body_thanks := translate "email_body_thanks" lang in
    let contact_info := "Phone: " +:+ phone +:+ nl +:+ "Address: " +:+ address +:+ nl in
    let body := body_intro +:+ nl +:+ nl
                +:+ "Items:" +:+ nl +:+ items_block +:+ nl +:+ nl
                +:+ body_total +:+ nl
                +:+ payment_info payment_method card_number
                +:+ contact_info
                +:+ body_thanks in
    let sender := default "" (SENDER_EMAIL env) in
    let recipients :=
      customer_email ::
      (if unset vendor_email then [] else [default "" vendor_email]) in
    let text := "From: " +:+ sender +:+ crlf
                +:+ "To: " +:+ PyStr.join ", " recipients +:+ crlf
                +:+ "Subject: " +:+ subject +:+ crlf +:+ crlf +:+ body in
    if smtp_io_ok env then Some [Email sender recipients text] else Some [].

(** The rows that the item loop of [handle_checkout_post] inserts into
    [order_items] when no statement raises: one per cart line whose product
    has a price in the catalog, the others are skipped. *)
Fixpoint order_item_rows (products : gmap Z product) (oid : Z)
    (c : list cart_line) : list order_item_row :=
  match c with
  | [] => []
  | item :: rest =>
      match products !! product_id item with
      | None => order_item_rows products oid rest
      | Some p =>
          OrderItemRow oid (product_id item) (quantity item) (price p)
          :: order_item_rows products oid rest
      end
  end.

(** The item loop of [handle_checkout_post] itself. The SELECT of the price
    binds the product id and the INSERT binds the quantity: [None] stands
    for the [OverflowError] that [sqlite3] raises on an integer out of 64
    bits, which leaves the handler before the commit. *)
Fixpoint insert_order_items (products : gmap Z product) (oid : Z)
    (c : list cart_line) : option (list order_item_row) :=
  match c with
  | [] => Some []
  | item :: rest =>
      if sqlite_int (product_id item) then
        match products !! product_id item with
        | None => insert_order_items products oid rest
        | Some p =>
            if sqlite_int (quantity item) then
              match insert_order_items products oid rest with
              | None => None
              | Some rows =>
                  Some (OrderItemRow oid (product_id item) (quantity item)
                                     (price p) :: rows)
              end
            else None
        end
      else None
  end.

(** One entry of the flattened items description of the audit row. The
    audit loop runs after the item loop, on product ids that were all
    bound there. *)
Definition item_description (products : gmap Z product) (item : cart_line)
  : string :=
  let prod_name :=
    match products !! product_id item with
    | Some p => name_fr p
    | None => "ID" +:+ pretty (product_id item)
    end in
  prod_name +:+ " x " +:+ pretty (quantity item).

Definition csv_header : list string :=
  ["timestamp"; "name"; "email"; "phone"; "address"; "payment_method";
   "card_number"; "items"; "total"].

(** The audit row of one order. *)
Definition audit_row (env : environ) (d : database)
    (name email phone address payment_method card_number : string)
    (c : list cart_line) (total_amount : float) : list string :=
  [now env; name; email; phone; address; payment_method;
   if String.eqb payment_method "card" then card_number else "";
   PyStr.join "; " (map (item_description (product_table d)) c);
   format_2f total_amount].

(** Appending to [orders.csv]: a new file gets the header row first. *)
Definition audit_append (file : option (list (list string)))
    (row : list string) : option (list (list string)) :=
  match file with
  | None => Some [csv_header; row]
  | Some rows => Some (rows ++ [row])
  end.

(** The database after the commit of [handle_checkout_post]: one more row
    in [orders], and the item rows [items] inserted under its id. *)
Definition insert_order (d : database)
    (name address stored_card : string) (total_amount : float)
    (phone payment_method email : string) (items : list order_item_row)
  : database :=
  let oid := orders_seq d + 1 in
  {| product_table := product_table d;
     orders := orders d ++ [OrderRow oid name address stored_card total_amount
                                     phone payment_method email];
     orders_seq := oid;
     order_items := order_items d ++ items |}.

(** [handle_checkout_post], from the parsed form on. An [OverflowError] of
    the item loop leaves the handler before [conn.commit()]: nothing is
    stored, the audit file and the session are not touched. Other errors of
    SQLite (a locked or missing database file) are not modelled. *)
Definition handle_checkout_post (env : environ) (params : query)
    (w : world) (s : session) : response * world * session :=
  let name := field params "name" in
  let email := field params "email" in
  let phone := field params "phone" in
  let address := field params "address" in
  let payment_method := field params "payment_method" in
  let card_number := field params "card_number" in
  if PyStr.falsy name || PyStr.falsy phone || PyStr.falsy address
     || PyStr.falsy payment_method
  then (SendError 400 "Missing required fields", w, s)
  else
    let c := session_cart s in
    let total_amount := default 0%float (checkout_total s) in
    match c with
    | [] => (SendError 400 "Cart is empty", w, s)
    | _ :: _ =>
        let stored_card :=
          if String.eqb payment_method "card" then card_number else "" in
        match insert_order_items (product_table (db w))
                                 (orders_seq (db w) + 1) c with
        | None => (Unhandled "OverflowError", w, s)
        | Some items =>
            let d' := insert_order (db w) name address stored_card
                                   total_amount phone payment_method email
                                   items in
            let csv' :=
              if csv_io_ok env
              then audit_append (orders_csv w)
                     (audit_row env d' name email phone address payment_method
                                card_number c total_amount)
              else orders_csv w in
            let sent :=
              default [] (send_order_email env d' email name (VENDOR_EMAIL env)
                            c total_amount payment_method stored_card phone
                            address (lang s)) in
            (Redirect 303 ("/confirmation?lang=" +:+ lang s),
             {| db := d'; orders_csv := csv'; outbox := outbox w ++ sent |},
             {| lang := lang s; cart := Some [];
                checkout_total := Some 0%float;
                last_order_total := Some total_amount |})
        end
    end.

End Checkout.

(** The two client-error outcomes of a checkout submission. *)
Definition ValidationError : response := SendError 400 "Missing required fields".
Definition EmptyCartError : response := SendError 400 "Cart is empty".

(** What the branches of [handle_update_cart] leave of a line [(pid, q)]:
    the line with its new quantity, or nothing. *)
Definition updated_line (action : string) (pid q : Z) : list cart_line :=
  if String.eqb action "increase" then [CartLine pid (q + 1)]
  else if String.eqb action "decrease" then
    if q - 1 <=? 0 then [] else [CartLine pid (q - 1)]
  else if String.eqb action "remove" then []
  else [CartLine pid q].

(** ** Carts that the handlers can build *)

(** The carts a session can hold: the empty list of a new session (and of a
    finished checkout), changed by [handle_add_to_cart] and
    [handle_update_cart] only. *)
Inductive cart_reachable : list cart_line -> Prop :=
| reach_new : cart_reachable []
| reach_add pid c : cart_reachable c -> cart_reachable (cart_add pid c)
| reach_update pid action c :
    cart_reachable c -> cart_reachable (cart_update pid action c).

(** ** A concrete shop, for running the handlers *)

Module Demo.

(** The first seeded product (its Arabic name is outside the characters
    of the model). *)
Definition pizza : product :=
  {| name_fr := "Pizza Margherita"; name_en := "Margherita Pizza";
     name_ar := ""; price := 15%float |}.

Definition shop : database :=
  {| product_table := {[ 1 := pizza ]}; orders := []; orders_seq := 0;
     order_items := [] |}.

Definition world0 : world :=
  {| db := shop; orders_csv := None; outbox := [] |}.

Definition env0 : environ :=
  {| SMTP_SERVER := Some "smtp.example.org";
     SMTP_USERNAME := Some "shop@example.org";
     SMTP_PASSWORD := Some "secret";
     SENDER_EMAIL_VAR := None;
     VENDOR_EMAIL := None;
     now := "2024-01-01 12:00:00";
     csv_io_ok := true;
     smtp_io_ok := true |}.

(** An empty translation table: [translate] answers the key itself. *)
Definition no_translations : gmap string (gmap string string) := ∅.

(** Stand-ins for [str.format] and for the two-decimals format. *)
Definition fill (template field value : string) : option string :=
  Some (template +:+ "[" +:+ field +:+ "=" +:+ value +:+ "]").
Definition two_decimals (x : float) : string :=
  match Prim2SF x with
  | S754_zero _ => "0.00"
  | _ => "#.##"
  end.

Definition form (fields : list (string * string)) : query :=
  list_to_map (map (fun kv => (kv.1, (kv.2, []))) fields).

Definition checkout := handle_checkout_post no_translations fill two_decimals.

(** A new session after a first page view with [?lang=fr]. *)
Definition visitor : session :=
  {| lang := "fr"; cart := Some []; checkout_total := None;
     last_order_total := None |}.

(** A cash order, also carrying fields that the handler never reads. *)
Definition cash_form : query :=
  form [("name", "A"); ("phone", "123"); ("address", "X");
        ("payment_method", "cash"); ("card_number", "4111111111111111");
        ("total", "1.00"); ("price", "0.01")].

Definition card_form : query :=
  form [("name", "A"); ("email", "a@example.org"); ("phone", "123");
        ("address", "X"); ("payment_method", "card");
        ("card_number", "4111111111111111")].

(** The visitor after two clicks on "add" for the pizza, and after the
    checkout page was shown for that cart. *)
Definition shopper : session := add_to_cart 1 (add_to_cart 1 visitor).
Definition reviewed : session := (render_checkout shop shopper).2.


(** The form without its name field ([parse_qs] drops empty fields). *)
Definition nameless_form : query :=
  form [("phone", "123"); ("address", "X"); ("payment_method", "cash")].

(** The form with a phone made of blanks only. *)
Definition blank_phone_form : query :=
  form [("name", "A"); ("phone", "   "); ("address", "X");
        ("payment_method", "cash")].

End Demo.

(** ** The session table and the routing of requests *)

(** [SessionManager.get_session]. [cookie] is the value of the cookie
    [session_id] of the request ([None] without it), [fresh] the text of
    [uuid.uuid4()]. The result is the session table, the id and the
    dictionary of the session of this request, and [_new_session_id] when a
    session was created. *)
Definition get_session (sessions : gmap string session)
    (cookie : option string) (fresh : string)
  : gmap string session * string * session * option string :=
  let known :=
    match cookie with
    | Some sid => if PyStr.falsy sid then None
                  else match sessions !! sid with
                       | Some s => Some (sid, s)
                       | None => None
                       end
    | None => None
    end in
  match known with
  | Some (sid, s) => (sessions, sid, s, None)
  | None => (<[fresh := new_session]> sessions, fresh, new_session, Some fresh)
  end.

(** [SessionManager.persist_cookie]: the header sent for a new session. *)
Definition persist_cookie (new_session_id : option string)
  : list (string * string) :=
  if unset new_session_id then []
  else [("Set-Cookie",
         "session_id=" +:+ default "" new_session_id +:+ "; Path=/; SameSite=Lax")].

(** The headers about the session on an answer: every handler calls
    [persist_cookie] on the pages and redirects it sends, and [send_error]
    does not. *)
Definition cookie_headers (r : response) (new_session_id : option string)
  : list (string * string) :=
  match r with
  | Redirect _ _ | Html _ => persist_cookie new_session_id
  | SendError _ _ | Unhandled _ => []
  end.

(** A line of the table of the cart page: name, quantity, price, subtotal. *)
Record cart_row := CartRow {
  row_name : string;
  row_quantity : Z;
  row_price : float;
  row_total : float
}.

(** The pricing loop of [render_cart]; [None] when a statement raises. *)
Fixpoint render_cart_loop (products : gmap Z product)
    (name_of : product -> string) (c : list cart_line)
    (rows : list cart_row) (total_amount : float)
  : option (list cart_row * float) :=
  match c with
  | [] => Some (rows, total_amount)
  | item :: rest =>
      if sqlite_int (product_id item) then
        match products !! product_id item with
        | None => render_cart_loop products name_of rest rows total_amount
        | Some p =>
            match int_to_float (quantity item) with
            | None => None
            | Some q =>
                let item_total := PrimFloat.mul (price p) q in
                render_cart_loop products name_of rest
                  (rows ++ [CartRow (name_of p) (quantity item) (price p) item_total])
                  (PrimFloat.add total_amount item_total)
            end
        end
      else None
  end.

(** The loop of the cart summary in the sidebar of [render_products]: for
    each list entry the values that its text shows (quantity, name and
    subtotal), and the total. *)
Fixpoint sidebar_loop (products : gmap Z product)
    (name_of : product -> string) (c : list cart_line)
    (entries : list (Z * string * float)) (total_amount : float)
  : option (list (Z * string * float) * float) :=
  match c with
  | [] => Some (entries, total_amount)
  | item :: rest =>
      if sqlite_int (product_id item) then
        match products !! product_id item with
        | None => sidebar_loop products name_of rest entries total_amount
        | Some p =>
            match int_to_float (quantity item) with
            | None => None
            | Some q =>
                let item_total := PrimFloat.mul (price p) q in
                sidebar_loop products name_of rest
                  (entries ++ [(quantity item, name_of p, item_total)])
                  (PrimFloat.add total_amount item_total)
            end
        end
      else None
  end.

Section Routing.

(** Python's [int(text)]; [None] stands for [ValueError]. *)
Variable py_int : string -> option Z.

(** [serve_static], which reads the file system only: a page stands for
    the file that is served, an error for the answer 404. *)
Variable serve_static : string -> response.

Variable translations : gmap string (gmap string string).
Variable py_format : string -> string -> string -> option string.
Variable format_2f : float -> string.

(** What [render_cart] computes before the page is built: no row and 0.0
    for an empty cart, else the rows and the total of the loop. *)
Definition render_cart_view (d : database) (s : session)
  : option (list cart_row * float) :=
  match session_cart s with
  | [] => Some ([], 0%float)
  | _ :: _ =>
      render_cart_loop (product_table d) (name_in (lang s)) (session_cart s)
                       [] 0%float
  end.

Definition render_cart (d : database) (s : session) : response * session :=
  match render_cart_view d s with
  | Some _ => (Html 200, s)
  | None => (Unhandled "OverflowError", s)
  end.

(** The cart summary of the products page: nothing priced for an empty
    cart. *)
Definition sidebar_view (d : database) (s : session)
  : option (list (Z * string * float) * float) :=
  match session_cart s with
  | [] => Some ([], 0%float)
  | _ :: _ =>
      sidebar_loop (product_table d) (name_in (lang s))
                   (session_cart s) [] 0%float
  end.

(** [render_products]: the product list needs nothing from the session; the
    cart summary is priced for the sidebar (and again, the same way, for the
    overlay). *)
Definition render_products (d : database) (s : session) : response * session :=
  match sidebar_view d s with
  | Some _ => (Html 200, s)
  | None => (Unhandled "OverflowError", s)
  end.

(** [render_product_detail] *)
Definition render_product_detail (d : database) (s : session)
    (params : query) : response * session :=
  match params !! "product_id" with
  | None => (SendError 400 "Missing product_id", s)
  | Some (text, _) =>
      match py_int text with
      | None => (SendError 400 "Invalid product_id", s)
      | Some pid =>
          if sqlite_int pid then
            match product_table d !! pid with
            | None => (SendError 404 "Product not found", s)
            | Some _ => (Html 200, s)
            end
          else (Unhandled "OverflowError", s)
      end
  end.

(** The entry ['order_total'] of the confirmation page. *)
Definition confirmation_order_total (s : session) : string :=
  format_2f (default 0%float (last_order_total s)) +:+ " TND".

Definition render_confirmation (s : session) : response * session :=
  (Html 200, s).

(** The chain of tests on the path in [do_GET], on the session whose
    language was just set. The home page and the information pages read the
    session and the catalog without changing them. *)
Definition route (d : database) (path : string) (params : query)
    (s : session) : response * session :=
  if String.prefix "/static/" path then (serve_static path, s)
  else if String.eqb path "/" || String.eqb path "" then (Html 200, s)
  else if String.eqb path "/products" then render_products d s
  else if String.eqb path "/product" then render_product_detail d s params
  else if String.eqb path "/add_to_cart" then handle_add_to_cart py_int s params
  else if String.eqb path "/update_cart" then handle_update_cart py_int s params
  else if String.eqb path "/cart" then render_cart d s
  else if String.eqb path "/checkout" then render_checkout d s
  else if String.eqb path "/confirmation" then render_confirmation s
  else if String.eqb path "/privacy" || String.eqb path "/terms"
          || String.eqb path "/faq" || String.eqb path "/contact"
          || String.eqb path "/delivery" then (Html 200, s)
  else (SendError 404 "Not Found", s).

(** [session['lang'] = params.get('lang', [session.get('lang', 'ar')])[0]] *)
Definition set_lang (params : query) (s : session) : session :=
  {| lang := match params !! "lang" with
             | Some (v, _) => v
             | None => lang s
             end;
     cart := cart s;
     checkout_total := checkout_total s;
     last_order_total := last_order_total s |}.

(** [do_GET], from the parsed path and query on: the answer, the session
    header and the session table. *)
Definition do_GET (sessions : gmap string session) (cookie : option string)
    (fresh : string) (d : database) (path : string) (params : query)
  : response * list (string * string) * gmap string session :=
  let '(sessions1, sid, s, new_id) := get_session sessions cookie fresh in
  let '(r, s') := route d path params (set_lang params s) in
  (r, cookie_headers r new_id, <[sid := s']> sessions1).

(** [do_POST], from the parsed path and form on. *)
Definition do_POST (sessions : gmap string session) (cookie : option string)
    (fresh : string) (env : environ) (path : string) (params : query)
    (w : world)
  : response * list (string * string) * gmap string session * world :=
  if String.eqb path "/checkout" then
    let '(sessions1, sid, s, new_id) := get_session sessions cookie fresh in
    let '(r, w', s') :=
      handle_checkout_post translations py_format format_2f env params w s in
    (r, cookie_headers r new_id, <[sid := s']> sessions1, w')
  else (SendError 404 "Not Found", [], sessions, w).

(** The sessions that requests can produce: a new one, changed by the
    handlers of [do_GET] and by [handle_checkout_post]. *)
Inductive session_reachable : session -> Prop :=
| reach_session_new : session_reachable new_session
| reach_session_get d path params s :
    session_reachable s ->
    session_reachable (route d path params (set_lang params s)).2
| reach_session_post env params w s :
    session_reachable s ->
    session_reachable
      (handle_checkout_post translations py_format format_2f env params w s).2.

(** A request that is neither a checkout page that is shown nor a confirmed
    submission: any other GET request (a checkout request answered by the
    redirect of an empty cart or by an exception included) and any
    submission that is refused or raises. *)
Inductive quiet_step : session -> session -> Prop :=
| quiet_get d path params s r s' :
    route d path params (set_lang params s) = (r, s') ->
    (path = "/checkout" -> r <> Html 200) ->
    quiet_step s s'
| quiet_post env params w s r w' s' :
    handle_checkout_post translations py_format format_2f env params w s
    = (r, w', s') ->
    (forall location, r <> Redirect 303 location) ->
    quiet_step s s'.

End Routing.

(** ** A concrete site, for running whole requests *)

Module Site.

(** A stand-in for [int] on texts made of decimal digits. *)
Definition digit (c : ascii) : option Z :=
  let n := Z.of_N (N_of_ascii c) in
  if (48 <=? n) && (n <=? 57) then Some (n - 48) else None.

Fixpoint digits (s : string) (acc : Z) : option Z :=
  match s with
  | EmptyString => Some acc
  | String c rest =>
      match digit c with
      | Some v => digits rest (10 * acc + v)
      | None => None
      end
  end.

Definition parse_int (s : string) : option Z :=
  match s with
  | EmptyString => None
  | _ => digits s 0
  end.

(** An empty static directory. *)
Definition no_static (path : string) : response :=
  SendError 404 "Static file not found".

Definition get :=
  do_GET parse_int no_static.

Definition go := route parse_int no_static.

Definition post :=
  do_POST Demo.no_translations Demo.fill Demo.two_decimals.

(** A table with one session, the shopper of [Demo], under the id [abc]. *)
Definition one_session : gmap string session := {[ "abc" := Demo.shopper ]}.

End Site.

(** ** What the inserts keep true of the database *)

(** Order ids are unique and not above the counter; every item row belongs
    to an order of the table and names a product of the catalog. *)
Definition db_ok (d : database) : Prop :=
  Forall (fun o => order_id o <= orders_seq d) (orders d)
  /\ NoDup (map order_id (orders d))
  /\ Forall (fun i => item_order_id i ∈ map order_id (orders d)
                      /\ is_Some (product_table d !! item_product_id i))
            (order_items d).

(** * Properties *)

(** ** Strings *)

Lemma falsy_spec (s : string) : PyStr.falsy s = true <-> s = "".
Proof. destruct s; simpl; split; congruence. Qed.

(** ** The cart *)

Section CartFacts.

Implicit Types (c : list cart_line) (pid q : Z).

Lemma ids_app c1 c2 : ids (c1 ++ c2) = ids c1 ++ ids c2.
Proof. apply map_app. Qed.

Lemma product_id_eqb_false pid c :
  pid ∉ ids c -> Forall (fun item => (product_id item =? pid) = false) c.
Proof.
  induction c as [|item rest IH]; intros Hout; constructor.
  - apply Z.eqb_neq. intros Heq. apply Hout. rewrite <- Heq. left.
  - apply IH. intros Hin. apply Hout. right. exact Hin.
Qed.

(** Adding a product that has no line appends a line of quantity 1. *)
Lemma cart_add_absent pid c :
  pid ∉ ids c -> cart_add pid c = c ++ [CartLine pid 1].
Proof.
  intros Hout. apply product_id_eqb_false in Hout.
  induction Hout as [|item rest Hne _ IH]; simpl; [done|].
  by rewrite Hne, IH.
Qed.

(** Adding a product that has a line increments the first such line. *)
Lemma cart_add_present pid q c1 c2 :
  pid ∉ ids c1 ->
  cart_add pid (c1 ++ CartLine pid q :: c2) = c1 ++ CartLine pid (q + 1) :: c2.
Proof.
  intros Hout. apply product_id_eqb_false in Hout.
  induction Hout as [|item rest Hne _ IH]; simpl.
  - by rewrite Z.eqb_refl.
  - by rewrite Hne, IH.
Qed.

(** The lines for [pid] after one [add]: a new line of quantity 1, or the
    first existing one incremented. *)
Lemma lines_for_cart_add pid c :
  lines_for pid (cart_add pid c) =
  match lines_for pid c with
  | [] => [CartLine pid 1]
  | item :: others => CartLine pid (quantity item + 1) :: others
  end.
Proof.
  unfold lines_for. induction c as [|item rest IH]; simpl.
  - by rewrite Z.eqb_refl.
  - destruct (product_id item =? pid) eqn:Heq; simpl; rewrite Heq.
    + apply Z.eqb_eq in Heq. by rewrite Heq.
    + exact IH.
Qed.

(** The lines of another product are not touched by [add]. *)
Lemma lines_for_cart_add_other pid pid' c :
  pid <> pid' -> lines_for pid' (cart_add pid c) = lines_for pid' c.
Proof.
  intros Hne. unfold lines_for. induction c as [|item rest IH]; simpl.
  - by apply Z.eqb_neq in Hne as ->.
  - destruct (Z.eqb_spec (product_id item) pid) as [Heq|Hne']; simpl.
    + rewrite Heq. by apply Z.eqb_neq in Hne as ->.
    + by rewrite IH.
Qed.

Lemma lines_for_iter_add pid c (n : nat) :
  lines_for pid (Nat.iter n (cart_add pid) c) =
  match lines_for pid c, n with
  | [], O => []
  | [], S _ => [CartLine pid (Z.of_nat n)]
  | item :: others, O => item :: others
  | item :: others, S _ => CartLine pid (quantity item + Z.of_nat n) :: others
  end.
Proof.
  induction n as [|n IH].
  - simpl. by destruct (lines_for pid c).
  - rewrite Nat.iter_succ, lines_for_cart_add, IH.
    destruct (lines_for pid c) as [|item others], n as [|n]; simpl quantity;
      try done; do 2 f_equal; lia.
Qed.

(** The product ids after one [add]: unchanged, or [pid] appended when it
    had no line. *)
Lemma ids_cart_add pid c :
  ids (cart_add pid c) = if decide (pid ∈ ids c) then ids c else ids c ++ [pid].
Proof.
  induction c as [|item rest IH].
  - destruct (decide (pid ∈ ids [])) as [Hin|_]; [by apply elem_of_nil in Hin|done].
  - cbn [cart_add].
    destruct (decide (pid ∈ ids (item :: rest))) as [Hin|Hout];
      destruct (Z.eqb_spec (product_id item) pid) as [Heq|Hne].
    + reflexivity.
    + apply elem_of_cons in Hin as [Heq|Hin]; [by symmetry in Heq|].
      change (ids (item :: cart_add pid rest))
        with (product_id item :: ids (cart_add pid rest)).
      by rewrite IH, decide_True.
    + exfalso. apply Hout. rewrite <- Heq. left.
    + change (ids (item :: cart_add pid rest))
        with (product_id item :: ids (cart_add pid rest)).
      rewrite IH, decide_False; [done|].
      intros Hin. apply Hout. by right.
Qed.

(** [add] keeps the invariant. *)
Lemma cart_add_wf pid c : cart_wf c -> cart_wf (cart_add pid c).
Proof.
  unfold cart_wf. intros Hwf. rewrite ids_cart_add.
  destruct (decide (pid ∈ ids c)) as [Hin|Hout]; [done|].
  apply NoDup_app. split_and!; [done| |apply NoDup_singleton].
  intros x Hx ->%list_elem_of_singleton. done.
Qed.

Lemma sublist_cart_update pid action c :
  ids (cart_update pid action c) `sublist_of` ids c.
Proof.
  induction c as [|item rest IH]; simpl; [done|].
  destruct (product_id item =? pid).
  - destruct (String.eqb action "increase"); [done|].
    destruct (String.eqb action "decrease").
    + simpl. destruct (quantity item - 1 <=? 0); [by apply sublist_cons|done].
    + destruct (String.eqb action "remove"); [by apply sublist_cons|done].
  - simpl. by apply sublist_skip.
Qed.

(** [update] keeps the invariant. *)
Lemma cart_update_wf pid action c : cart_wf c -> cart_wf (cart_update pid action c).
Proof.
  unfold cart_wf. intros Hwf.
  eapply sublist_NoDup; [exact Hwf|apply sublist_cart_update].
Qed.

(** Every cart that the handlers can build has at most one line per
    product. *)
Lemma cart_reachable_wf c : cart_reachable c -> cart_wf c.
Proof.
  induction 1 as [|pid c _ IH|pid action c _ IH].
  - apply NoDup_nil_2.
  - by apply cart_add_wf.
  - by apply cart_update_wf.
Qed.

(** Under the invariant a product has at most one line. *)
Lemma cart_wf_lines_for pid c : cart_wf c -> (length (lines_for pid c) <= 1)%nat.
Proof.
  unfold cart_wf, lines_for. induction c as [|item rest IH]; simpl; [lia|].
  intros [Hout Hwf]%NoDup_cons.
  destruct (Z.eqb_spec (product_id item) pid) as [Heq|Hne]; [|by apply IH].
  simpl. rewrite Heq in Hout. apply product_id_eqb_false in Hout.
  assert (List.filter (fun item => product_id item =? pid) rest = []) as ->.
  { clear -Hout. induction Hout as [|x l Hx _ IHl]; simpl; [done|]. by rewrite Hx. }
  simpl. lia.
Qed.

Lemma lines_for_absent pid c : pid ∉ ids c -> lines_for pid c = [].
Proof.
  intros Hout. apply product_id_eqb_false in Hout. unfold lines_for.
  induction Hout as [|x l Hx _ IHl]; simpl; [done|]. by rewrite Hx.
Qed.

Lemma session_cart_iter_add pid (s : session) (n : nat) :
  session_cart (Nat.iter n (add_to_cart pid) s)
  = Nat.iter n (cart_add pid) (session_cart s).
Proof.
  induction n as [|n IH]; [done|]. rewrite Nat.iter_succ.
  unfold add_to_cart at 1. unfold session_cart at 1. simpl. by rewrite IH.
Qed.

Lemma iter_cart_add_wf pid c (n : nat) :
  cart_wf c -> cart_wf (Nat.iter n (cart_add pid) c).
Proof.
  intros Hwf. induction n as [|n IH]; [done|].
  rewrite Nat.iter_succ. by apply cart_add_wf.
Qed.

End CartFacts.

Section UpdateFacts.

Implicit Types (c : list cart_line) (pid q : Z) (s : session).

Lemma cart_update_present pid action q c1 c2 :
  pid ∉ ids c1 ->
  cart_update pid action (c1 ++ CartLine pid q :: c2)
  = c1 ++ updated_line action pid q ++ c2.
Proof.
  intros Hout. apply product_id_eqb_false in Hout.
  induction Hout as [|item rest Hne _ IH]; simpl.
  - rewrite Z.eqb_refl. unfold updated_line.
    destruct (String.eqb action "increase"); [done|].
    destruct (String.eqb action "decrease").
    + by destruct (q - 1 <=? 0).
    + by destruct (String.eqb action "remove").
  - by rewrite Hne, IH.
Qed.

Lemma cart_update_absent pid action c :
  pid ∉ ids c -> cart_update pid action c = c.
Proof.
  intros Hout. apply product_id_eqb_false in Hout.
  induction Hout as [|item rest Hne _ IH]; simpl; [done|].
  by rewrite Hne, IH.
Qed.

(** Popping the ['cart'] key of an empty cart is not visible through
    [session.get('cart', [])]. *)
Lemma session_cart_update pid action s :
  session_cart (update_cart pid action s)
  = cart_update pid action (session_cart s).
Proof.
  unfold update_cart, session_cart at 1. simpl.
  by destruct (cart_update pid action (session_cart s)).
Qed.

Lemma session_cart_add pid s :
  session_cart (add_to_cart pid s) = cart_add pid (session_cart s).
Proof. reflexivity. Qed.

(** With a product id that parses and an action, [handle_update_cart]
    answers a redirect, whatever the cart holds. *)
Lemma handle_update_cart_redirects (py_int : string -> option Z) s
    (params : query) text others action others' pid :
  params !! "product_id" = Some (text, others) ->
  params !! "action" = Some (action, others') ->
  py_int text = Some pid ->
  exists location,
    handle_update_cart py_int s params
    = (Redirect 302 location, update_cart pid action s).
Proof.
  intros Hid Hact Hint. unfold handle_update_cart.
  rewrite Hid, Hact, Hint. eauto.
Qed.

Lemma handle_add_to_cart_redirects (py_int : string -> option Z) s
    (params : query) text others pid :
  params !! "product_id" = Some (text, others) ->
  py_int text = Some pid ->
  exists location,
    handle_add_to_cart py_int s params
    = (Redirect 302 location, add_to_cart pid s).
Proof.
  intros Hid Hint. unfold handle_add_to_cart. rewrite Hid, Hint. eauto.
Qed.

(** Quantities stay positive: a line starts at 1, and a decrease that would
    reach 0 drops the line. *)
Lemma cart_add_positive pid c :
  Forall (fun item => 1 <= quantity item) c ->
  Forall (fun item => 1 <= quantity item) (cart_add pid c).
Proof.
  induction 1 as [|item rest Hq Hrest IH]; simpl.
  - by repeat constructor.
  - destruct (product_id item =? pid); constructor; simpl; try done; lia.
Qed.

Lemma cart_update_positive pid action c :
  Forall (fun item => 1 <= quantity item) c ->
  Forall (fun item => 1 <= quantity item) (cart_update pid action c).
Proof.
  induction 1 as [|item rest Hq Hrest IH]; simpl; [done|].
  destruct (product_id item =? pid); [|by constructor].
  destruct (String.eqb action "increase"); [constructor; simpl; [lia|done]|].
  destruct (String.eqb action "decrease").
  - simpl. destruct (Z.leb_spec (quantity item - 1) 0); [done|].
    constructor; simpl; [lia|done].
  - destruct (String.eqb action "remove"); [done|by constructor].
Qed.

Lemma cart_reachable_positive c :
  cart_reachable c -> Forall (fun item => 1 <= quantity item) c.
Proof.
  induction 1 as [|pid c _ IH|pid action c _ IH].
  - constructor.
  - by apply cart_add_positive.
  - by apply cart_update_positive.
Qed.

End UpdateFacts.

(** C7. After [n >= 1] calls of add for one product id on a cart that has at
    most one line per product, the cart holds exactly one line for that
    product, it still has at most one line per product, and when the product
    had no line before, its quantity is [n]. *)
Theorem add_same_product_n_times (s : session) (pid : Z) (n : nat) :
  cart_wf (session_cart s) ->
  (1 <= n)%nat ->
  length (lines_for pid (session_cart (Nat.iter n (add_to_cart pid) s))) = 1%nat
  /\ cart_wf (session_cart (Nat.iter n (add_to_cart pid) s))
  /\ (pid ∉ ids (session_cart s) ->
      lines_for pid (session_cart (Nat.iter n (add_to_cart pid) s))
      = [CartLine pid (Z.of_nat n)]).
Proof.
  intros Hwf Hn. rewrite session_cart_iter_add, lines_for_iter_add.
  pose proof (cart_wf_lines_for pid _ Hwf) as Hone.
  split_and!.
  - destruct (lines_for pid (session_cart s)) as [|item others], n as [|n];
      simpl in *; lia.
  - by apply iter_cart_add_wf.
  - intros Hout. rewrite (lines_for_absent _ _ Hout).
    destruct n as [|n]; [lia|done].
Qed.

Lemma add_same_product_n_times_witness :
  lines_for 7 (session_cart (Nat.iter 3 (add_to_cart 7) new_session))
  = [CartLine 7 3].
Proof.
  apply (add_same_product_n_times new_session 7 3);
    [apply NoDup_nil_2 | lia | apply not_elem_of_nil].
Defined.

(** C8. On the first line for the product id: increase adds 1, decrease
    subtracts 1 and drops the line when the result is at most 0 (so at
    quantity 1 the line goes), remove drops the line; on a session whose
    cart has no line for the id, no action changes the cart. *)
Theorem update_cart_actions (s s0 : session) (pid q : Z) (c1 c2 : list cart_line) :
  session_cart s = c1 ++ CartLine pid q :: c2 ->
  pid ∉ ids c1 ->
  pid ∉ ids (session_cart s0) ->
  session_cart (update_cart pid "increase" s) = c1 ++ CartLine pid (q + 1) :: c2
  /\ session_cart (update_cart pid "decrease" s)
     = (if q - 1 <=? 0 then c1 ++ c2 else c1 ++ CartLine pid (q - 1) :: c2)
  /\ (q = 1 -> session_cart (update_cart pid "decrease" s) = c1 ++ c2)
  /\ session_cart (update_cart pid "remove" s) = c1 ++ c2
  /\ forall action, session_cart (update_cart pid action s0) = session_cart s0.
Proof.
  intros Hcart Hout Hout0.
  rewrite !session_cart_update, Hcart, !cart_update_present by done.
  split_and!.
  - reflexivity.
  - unfold updated_line; simpl. by destruct (q - 1 <=? 0).
  - intros ->. reflexivity.
  - reflexivity.
  - intros action. rewrite session_cart_update. by apply cart_update_absent.
Qed.

Lemma update_cart_actions_witness :
  session_cart (update_cart 2 "decrease"
                  (add_to_cart 2 (add_to_cart 1 new_session)))
  = [CartLine 1 1]
  /\ session_cart (update_cart 5 "remove" new_session) = [].
Proof.
  pose proof (update_cart_actions
                (add_to_cart 2 (add_to_cart 1 new_session)) new_session
                2 1 [CartLine 1 1] []) as H.
  destruct H as (_ & _ & Hdec & _ & Habsent).
  - reflexivity.
  - intros Hin. apply list_elem_of_singleton in Hin. discriminate.
  - apply not_elem_of_nil.
  - split; [exact (Hdec eq_refl) | exact (Habsent "remove")].
Defined.

(** ** Checkout *)

Section ItemLoopFacts.

Implicit Types (products : gmap Z product) (c : list cart_line).

(** When the item loop does not raise, it inserts [order_item_rows]. *)
Lemma insert_order_items_rows products oid c items :
  insert_order_items products oid c = Some items ->
  items = order_item_rows products oid c.
Proof.
  revert items. induction c as [|item rest IH]; intros items; simpl.
  - by intros [= <-].
  - destruct (sqlite_int (product_id item)); [|done].
    destruct (products !! product_id item) as [p|]; [|apply IH].
    destruct (sqlite_int (quantity item)); [|done].
    destruct (insert_order_items products oid rest) as [rows|]; [|done].
    intros [= <-]. by rewrite (IH rows).
Qed.


(** The item loop raises on a product id that SQLite cannot bind. *)
Lemma insert_order_items_unbindable products oid c :
  Exists (fun item => sqlite_int (product_id item) = false) c ->
  insert_order_items products oid c = None.
Proof.
  induction c as [|item rest IH]; intros Hex; [by apply Exists_nil in Hex|].
  simpl. destruct (sqlite_int (product_id item)) eqn:Hid; [|done].
  apply Exists_cons in Hex as [Hbad|Hex]; [congruence|].
  rewrite (IH Hex). destruct (products !! product_id item); [|done].
  by destruct (sqlite_int (quantity item)).
Qed.

End ItemLoopFacts.

Section CheckoutFacts.

Context (translations : gmap string (gmap string string))
        (py_format : string -> string -> string -> option string)
        (format_2f : float -> string).

Implicit Types (env : environ) (params : query) (w : world) (s : session).

Local Abbreviation post := (handle_checkout_post translations py_format format_2f).

(** The stored card reference: the submitted one for a card payment only. *)
Local Abbreviation stored_card params :=
  (if String.eqb (field params "payment_method") "card"
   then field params "card_number" else "").

Lemma falsy_false (x : string) : PyStr.falsy x = false <-> x <> "".
Proof. destruct x; simpl; split; congruence. Qed.

(** A blank required field: the submission is refused before anything is
    read from the session or written anywhere. *)
Lemma checkout_invalid env params w s :
  field params "name" = "" \/ field params "phone" = ""
  \/ field params "address" = "" \/ field params "payment_method" = "" ->
  post env params w s = (ValidationError, w, s).
Proof.
  intros Hblank. unfold handle_checkout_post.
  destruct Hblank as [-> | [-> | [-> | ->]]]; simpl;
    rewrite ?orb_true_r; reflexivity.
Qed.

(** All required fields given, empty cart: refused, nothing written. *)
Lemma checkout_empty_cart env params w s :
  field params "name" <> "" -> field params "phone" <> "" ->
  field params "address" <> "" -> field params "payment_method" <> "" ->
  session_cart s = [] ->
  post env params w s = (EmptyCartError, w, s).
Proof.
  intros Hn%falsy_false Hp%falsy_false Ha%falsy_false Hm%falsy_false Hc.
  unfold handle_checkout_post. rewrite Hn, Hp, Ha, Hm, Hc. reflexivity.
Qed.

(** All required fields given, cart not empty, item loop done: the order is
    inserted with the total found in the session, the cart is emptied and
    the total is kept for the confirmation page. *)
Lemma checkout_items_ok env params w s items :
  field params "name" <> "" -> field params "phone" <> "" ->
  field params "address" <> "" -> field params "payment_method" <> "" ->
  session_cart s <> [] ->
  insert_order_items (product_table (db w)) (orders_seq (db w) + 1)
                     (session_cart s) = Some items ->
  exists csv' sent,
    post env params w s
    = (Redirect 303 ("/confirmation?lang=" +:+ lang s),
       {| db := insert_order (db w)
                  (field params "name") (field params "address")
                  (stored_card params) (default 0%float (checkout_total s))
                  (field params "phone") (field params "payment_method")
                  (field params "email")
                  (order_item_rows (product_table (db w))
                                   (orders_seq (db w) + 1) (session_cart s));
          orders_csv := csv';
          outbox := outbox w ++ sent |},
       {| lang := lang s; cart := Some [];
          checkout_total := Some 0%float;
          last_order_total := Some (default 0%float (checkout_total s)) |}).
Proof.
  intros Hn%falsy_false Hp%falsy_false Ha%falsy_false Hm%falsy_false Hc Hitems.
  rewrite <- (insert_order_items_rows _ _ _ _ Hitems).
  unfold handle_checkout_post. rewrite Hn, Hp, Ha, Hm. simpl.
  destruct (session_cart s) as [|item rest] eqn:Hcart; [done|].
  rewrite Hitems. eauto.
Qed.


(** All required fields given, cart not empty, but the item loop raises:
    the handler is left before the commit and nothing is written. *)
Lemma checkout_raises env params w s :
  field params "name" <> "" -> field params "phone" <> "" ->
  field params "address" <> "" -> field params "payment_method" <> "" ->
  session_cart s <> [] ->
  insert_order_items (product_table (db w)) (orders_seq (db w) + 1)
                     (session_cart s) = None ->
  post env params w s = (Unhandled "OverflowError", w, s).
Proof.
  intros Hn%falsy_false Hp%falsy_false Ha%falsy_false Hm%falsy_false Hc Hitems.
  unfold handle_checkout_post. rewrite Hn, Hp, Ha, Hm. simpl.
  destruct (session_cart s) as [|item rest] eqn:Hcart; [done|].
  by rewrite Hitems.
Qed.

(** A redirect is answered in the first of these cases only. *)
Lemma checkout_confirmed_inv env params w s code location w' s' :
  post env params w s = (Redirect code location, w', s') ->
  (field params "name" <> "" /\ field params "phone" <> ""
   /\ field params "address" <> "" /\ field params "payment_method" <> "")
  /\ session_cart s <> [].
Proof.
  intros Hpost.
  destruct (PyStr.falsy (field params "name")) eqn:Hn;
    [apply falsy_spec in Hn; rewrite checkout_invalid in Hpost by tauto; discriminate|].
  destruct (PyStr.falsy (field params "phone")) eqn:Hp;
    [apply falsy_spec in Hp; rewrite checkout_invalid in Hpost by tauto; discriminate|].
  destruct (PyStr.falsy (field params "address")) eqn:Ha;
    [apply falsy_spec in Ha; rewrite checkout_invalid in Hpost by tauto; discriminate|].
  destruct (PyStr.falsy (field params "payment_method")) eqn:Hm;
    [apply falsy_spec in Hm; rewrite checkout_invalid in Hpost by tauto; discriminate|].
  apply falsy_false in Hn, Hp, Ha, Hm. split; [tauto|].
  intros Hc. rewrite checkout_empty_cart in Hpost by done. discriminate.
Qed.

(** A redirect means that the item loop was run to its end. *)
Lemma checkout_confirmed_items env params w s code location w' s' :
  post env params w s = (Redirect code location, w', s') ->
  insert_order_items (product_table (db w)) (orders_seq (db w) + 1)
                     (session_cart s)
  = Some (order_item_rows (product_table (db w)) (orders_seq (db w) + 1)
                          (session_cart s)).
Proof.
  intros Hpost.
  destruct (checkout_confirmed_inv _ _ _ _ _ _ _ _ Hpost)
    as [(Hn & Hp & Ha & Hm) Hc].
  destruct (insert_order_items (product_table (db w)) (orders_seq (db w) + 1)
                               (session_cart s)) as [items|] eqn:Hitems.
  - by rewrite (insert_order_items_rows _ _ _ _ Hitems).
  - rewrite checkout_raises in Hpost by done. discriminate.
Qed.

(** What a redirect answers and writes. *)
Lemma checkout_confirmed_eq env params w s code location w' s' :
  post env params w s = (Redirect code location, w', s') ->
  exists csv' sent,
    post env params w s
    = (Redirect 303 ("/confirmation?lang=" +:+ lang s),
       {| db := insert_order (db w)
                  (field params "name") (field params "address")
                  (stored_card params) (default 0%float (checkout_total s))
                  (field params "phone") (field params "payment_method")
                  (field params "email")
                  (order_item_rows (product_table (db w))
                                   (orders_seq (db w) + 1) (session_cart s));
          orders_csv := csv';
          outbox := outbox w ++ sent |},
       {| lang := lang s; cart := Some [];
          checkout_total := Some 0%float;
          last_order_total := Some (default 0%float (checkout_total s)) |}).
Proof.
  intros Hpost.
  destruct (checkout_confirmed_inv _ _ _ _ _ _ _ _ Hpost)
    as [(Hn & Hp & Ha & Hm) Hc].
  exact (checkout_items_ok env params w s _ Hn Hp Ha Hm Hc
           (checkout_confirmed_items _ _ _ _ _ _ _ _ Hpost)).
Qed.

(** The audit row that a confirmed order appends when the file can be
    written: its card field is the submitted card reference as it is. *)
Lemma checkout_audit_row env params w s code location w' s' :
  post env params w s = (Redirect code location, w', s') ->
  csv_io_ok env = true ->
  exists row,
    orders_csv w'
    = audit_append (orders_csv w) row
    /\ row !! 5%nat = Some (field params "payment_method")
    /\ row !! 6%nat = Some (if String.eqb (field params "payment_method") "card"
                            then field params "card_number" else "").
Proof.
  intros Hpost Hio.
  destruct (checkout_confirmed_inv _ _ _ _ _ _ _ _ Hpost)
    as [(Hn%falsy_false & Hp%falsy_false & Ha%falsy_false & Hm%falsy_false) Hc].
  unfold handle_checkout_post in Hpost. rewrite Hn, Hp, Ha, Hm, Hio in Hpost.
  simpl in Hpost. destruct (session_cart s) as [|item rest]; [done|].
  destruct (insert_order_items _ _ _) as [items|]; [|done].
  injection Hpost as _ _ <- _. simpl. eexists. split; [reflexivity|].
  split; reflexivity.
Qed.

(** For a payment other than by card the mail carries no card text. *)
Lemma payment_info_cash payment_method card_number :
  payment_method <> "card" ->
  payment_info payment_method card_number
  = nl +:+ "Payment method: " +:+ payment_method +:+ nl
    +:+ "Payable on delivery" +:+ nl.
Proof.
  intros Hne%String.eqb_neq. unfold payment_info. by rewrite Hne.
Qed.

End CheckoutFacts.

Section ReviewFacts.

Implicit Types (d : database) (s : session).

(** A page answered by [render_checkout] means that the cart was priced
    and the sum stored; the cart itself is left as it was. *)
Lemma render_checkout_page d s0 s :
  render_checkout d s0 = (Html 200, s) ->
  exists t,
    review_total d (session_cart s0) = Some t
    /\ checkout_total s = Some t
    /\ session_cart s = session_cart s0
    /\ session_cart s0 <> [].
Proof.
  unfold render_checkout. intros Hpage.
  destruct (session_cart s0) as [|item rest] eqn:Hcart; [discriminate|].
  destruct (review_total d (item :: rest)) as [t|]; [|discriminate].
  injection Hpage as <-. exists t. unfold session_cart in *. simpl.
  by rewrite Hcart.
Qed.

End ReviewFacts.

Section OrderItemFacts.

Implicit Types (products : gmap Z product) (c : list cart_line).

(** The inserted item rows, line by line: a row for a line whose product
    is in the catalog, nothing for another line. *)
Lemma order_item_rows_omap products oid c :
  order_item_rows products oid c
  = omap (fun item =>
            p ← products !! product_id item;
            Some (OrderItemRow oid (product_id item) (quantity item) (price p)))
         c.
Proof.
  induction c as [|item rest IH]; simpl; [done|].
  destruct (products !! product_id item); simpl; by rewrite IH.
Qed.

Lemma order_item_rows_length products oid c :
  Forall (fun item => is_Some (products !! product_id item)) c ->
  length (order_item_rows products oid c) = length c.
Proof.
  induction 1 as [|item rest [p Hp] _ IH]; simpl; [done|].
  rewrite Hp. simpl. by rewrite IH.
Qed.

(** A line of an unknown product gets no row. *)
Lemma order_item_rows_unknown products oid c :
  Forall (fun item => products !! product_id item = None) c ->
  order_item_rows products oid c = [].
Proof.
  induction 1 as [|item rest Hnone _ IH]; simpl; [done|]. by rewrite Hnone.
Qed.

End OrderItemFacts.

Section CheckoutClaims.

Context (translations : gmap string (gmap string string))
        (py_format : string -> string -> string -> option string)
        (format_2f : float -> string).

Implicit Types (env : environ) (params : query) (w : world) (s : session).


(** C3, as amended. A confirmed checkout inserts one order row, and under
    its id one item row for each cart line whose product is in the
    catalog, in cart order and at the catalog price (lines of unknown
    products get no row); it leaves the cart empty and the last-order
    total equal to the order's total. *)
Theorem checkout_persists_order env params w s location w' s' :
  handle_checkout_post translations py_format format_2f env params w s
  = (Redirect 303 location, w', s') ->
  exists o,
    orders (db w') = orders (db w) ++ [o]
    /\ order_items (db w')
       = order_items (db w)
         ++ omap (fun item =>
                    p ← product_table (db w) !! product_id item;
                    Some (OrderItemRow (order_id o) (product_id item)
                                       (quantity item) (price p)))
                 (session_cart s)
    /\ (Forall (fun item => is_Some (product_table (db w) !! product_id item))
               (session_cart s) ->
        length (order_items (db w'))
        = (length (order_items (db w)) + length (session_cart s))%nat)
    /\ session_cart s' = []
    /\ last_order_total s' = Some (total o).
Proof.
  intros Hpost.
  destruct (checkout_confirmed_inv _ _ _ _ _ _ _ _ _ _ _ Hpost)
    as [(Hn & Hp & Ha & Hm) Hc].
  destruct (checkout_confirmed_eq translations py_format format_2f env params
              w s _ _ _ _ Hpost) as (csv' & sent & Heq).
  rewrite Heq in Hpost. injection Hpost as _ <- <-.
  eexists. split; [reflexivity|]. simpl.
  split_and!; try done.
  - by rewrite order_item_rows_omap.
  - intros Hall. rewrite length_app. f_equal.
    by apply order_item_rows_length.
Qed.

(** C4, as amended. With the four required fields given, a submission on
    an empty cart is refused as [EmptyCartError] and changes neither the
    stored data nor the session. *)
Theorem checkout_empty_cart_refused env params w s :
  field params "name" <> "" -> field params "phone" <> "" ->
  field params "address" <> "" -> field params "payment_method" <> "" ->
  session_cart s = [] ->
  handle_checkout_post translations py_format format_2f env params w s
  = (EmptyCartError, w, s).
Proof. apply checkout_empty_cart. Qed.

(** C5. A phone that is blank after trimming: the submission is refused as
    [ValidationError]; the database, the audit file, the outbox and the
    session (its cart included) are returned as they were. *)
Theorem checkout_blank_phone env params w s :
  field params "phone" = "" ->
  handle_checkout_post translations py_format format_2f env params w s
  = (ValidationError, w, s).
Proof. intros Hphone. apply checkout_invalid. tauto. Qed.

(** C6. A confirmed checkout paid in cash stores the empty string as the
    order's card reference, whatever card reference the form carried. *)
Theorem cash_order_has_no_card env params w s location w' s' :
  handle_checkout_post translations py_format format_2f env params w s
  = (Redirect 303 location, w', s') ->
  field params "payment_method" = "cash" ->
  exists o, orders (db w') = orders (db w) ++ [o]
            /\ payment_method o = "cash" /\ card_number o = "".
Proof.
  intros Hpost Hcash.
  destruct (checkout_confirmed_inv _ _ _ _ _ _ _ _ _ _ _ Hpost)
    as [(Hn & Hp & Ha & Hm) Hc].
  destruct (checkout_confirmed_eq translations py_format format_2f env params
              w s _ _ _ _ Hpost) as (csv' & sent & Heq).
  rewrite Heq in Hpost. injection Hpost as _ <- _.
  eexists. split; [reflexivity|]. simpl. by rewrite Hcash.
Qed.

(** C9. The required fields are checked before the cart: with a blank
    required field and an empty cart the answer is [ValidationError], which
    is not [EmptyCartError]. *)
Theorem validation_precedes_empty_cart env params w s :
  field params "name" = "" \/ field params "phone" = ""
  \/ field params "address" = "" \/ field params "payment_method" = "" ->
  session_cart s = [] ->
  handle_checkout_post translations py_format format_2f env params w s
  = (ValidationError, w, s)
  /\ (handle_checkout_post translations py_format format_2f env params w s).1.1
     <> EmptyCartError.
Proof.
  intros Hblank _. rewrite checkout_invalid by done. split; [done|].
  simpl. discriminate.
Qed.


End CheckoutClaims.

(** ** The card reference in the audit file and in the mail *)

Section CardFacts.

(** The masked text depends on the length of the card reference and on
    its last four characters only. *)
Lemma mask_card_hides (a b : string) :
  String.length a = String.length b ->
  PyStr.last_chars 4 a = PyStr.last_chars 4 b ->
  mask_card a = mask_card b.
Proof.
  intros Hlen Hlast. unfold mask_card, PyStr.len. rewrite Hlen, Hlast.
  by destruct a, b.
Qed.

(** A card reference of at most four characters is shown as it is. *)
Lemma mask_card_short (a : string) :
  (String.length a <= 4)%nat -> mask_card a = a.
Proof.
  intros Hlen. unfold mask_card. destruct a as [|c rest]; [done|].
  cbn [PyStr.falsy]. unfold PyStr.repeat_char, PyStr.len, PyStr.last_chars.
  replace (Z.to_nat (Z.of_nat (String.length (String c rest)) - 4)) with 0%nat by lia.
  replace (String.length (String c rest) - 4)%nat with 0%nat by lia.
  simpl. by rewrite string_of_list_ascii_of_string.
Qed.

(** The mail text about the payment sees the card reference through
    [mask_card] only, and so does the whole mail. *)
Lemma payment_info_masked (payment_method a b : string) :
  mask_card a = mask_card b ->
  payment_info payment_method a = payment_info payment_method b.
Proof. intros Hmask. unfold payment_info. by rewrite Hmask. Qed.

Lemma send_order_email_masked translations py_format format_2f env d
    customer_email customer_name vendor_email order_items total_amount
    payment_method (a b : string) phone address lang :
  mask_card a = mask_card b ->
  send_order_email translations py_format format_2f env d customer_email
    customer_name vendor_email order_items total_amount payment_method a
    phone address lang
  = send_order_email translations py_format format_2f env d customer_email
      customer_name vendor_email order_items total_amount payment_method b
      phone address lang.
Proof.
  intros Hmask. unfold send_order_email.
  by rewrite (payment_info_masked payment_method a b Hmask).
Qed.

End CardFacts.

(** ** Runs of the handlers on the concrete shop *)

Lemma float_neq (x y : float) : Prim2SF x <> Prim2SF y -> x <> y.
Proof. intros Hne ->. by apply Hne. Qed.

Lemma reviewed_outcome :
  Demo.checkout Demo.env0 Demo.cash_form Demo.world0 Demo.reviewed
  = (Redirect 303 "/confirmation?lang=fr",
     (Demo.checkout Demo.env0 Demo.cash_form Demo.world0 Demo.reviewed).1.2,
     (Demo.checkout Demo.env0 Demo.cash_form Demo.world0 Demo.reviewed).2).
Proof. vm_compute. reflexivity. Qed.

(** The scenario of the specification: two pizzas at 15.00, reviewed at
    30.00 and paid in cash. *)
Example scenario_cash_order :
  exists w' s',
    Demo.checkout Demo.env0 Demo.cash_form Demo.world0 Demo.reviewed
    = (Redirect 303 "/confirmation?lang=fr", w', s')
    /\ orders (db w')
       = [OrderRow 1 "A" "X" "" 30%float "123" "cash" ""]
    /\ order_items (db w') = [OrderItemRow 1 1 2 15%float]
    /\ session_cart s' = []
    /\ last_order_total s' = Some 30%float.
Proof. do 2 eexists. vm_compute. repeat split. Qed.

(** Increase, decrease and decrease again on a product that was just added
    leave the cart without that product. *)
Example scenario_increase_decrease_decrease :
  session_cart
    (update_cart 3 "decrease"
       (update_cart 3 "decrease"
          (update_cart 3 "increase" (add_to_cart 3 Demo.visitor))))
  = [].
Proof. reflexivity. Qed.

(** C1, the claim as stated fails: after the checkout page priced two
    pizzas (30.00), a third one is added and the form is submitted. The
    order is stored with 30.00, the total of the cart at submission time is
    45.00. *)
Lemma order_total_stale_counterexample :
  exists location w' s' o,
    Demo.checkout Demo.env0 Demo.cash_form Demo.world0
      (add_to_cart 1 Demo.reviewed)
    = (Redirect 303 location, w', s')
    /\ orders (db w') = [o]
    /\ total o = 30%float
    /\ review_total (db Demo.world0) (session_cart (add_to_cart 1 Demo.reviewed))
       = Some 45%float
    /\ total o <> 45%float.
Proof.
  do 4 eexists. split; [vm_compute; reflexivity|].
  split; [reflexivity|]. split; [reflexivity|]. split; [vm_compute; reflexivity|].
  apply float_neq. vm_compute. discriminate.
Qed.

Lemma checkout_persists_order_witness :
  exists o,
    orders (db (Demo.checkout Demo.env0 Demo.cash_form Demo.world0 Demo.reviewed).1.2)
    = [o]
    /\ session_cart (Demo.checkout Demo.env0 Demo.cash_form Demo.world0 Demo.reviewed).2
       = []
    /\ last_order_total
         (Demo.checkout Demo.env0 Demo.cash_form Demo.world0 Demo.reviewed).2
       = Some (total o).
Proof.
  destruct (checkout_persists_order
              Demo.no_translations Demo.fill Demo.two_decimals
              Demo.env0 Demo.cash_form Demo.world0 Demo.reviewed
              _ _ _ reviewed_outcome) as (o & Horders & _ & _ & Hcart & Hlast).
  exists o. split; [exact Horders|]. split; [exact Hcart | exact Hlast].
Defined.

(** C3, the claim as stated fails: a cart with one line for a product id
    that the catalog does not hold is confirmed with an order row and no
    item row. *)
Lemma checkout_unknown_product_counterexample :
  exists location w' s' o,
    Demo.checkout Demo.env0 Demo.cash_form Demo.world0
      (add_to_cart 999 Demo.visitor)
    = (Redirect 303 location, w', s')
    /\ session_cart (add_to_cart 999 Demo.visitor) = [CartLine 999 1]
    /\ orders (db w') = [o]
    /\ order_items (db w') = []
    /\ length (order_items (db w'))
       <> length (session_cart (add_to_cart 999 Demo.visitor)).
Proof.
  do 4 eexists. split; [vm_compute; reflexivity|].
  repeat split; simpl; lia.
Qed.

Lemma checkout_empty_cart_refused_witness :
  Demo.checkout Demo.env0 Demo.cash_form Demo.world0 Demo.visitor
  = (EmptyCartError, Demo.world0, Demo.visitor).
Proof.
  apply (checkout_empty_cart_refused
           Demo.no_translations Demo.fill Demo.two_decimals
           Demo.env0 Demo.cash_form Demo.world0 Demo.visitor);
    solve [vm_compute; discriminate | reflexivity].
Defined.

(** C4, the claim as stated fails: on an empty cart, a form without its
    name is refused as [ValidationError], not as [EmptyCartError]. *)
Lemma empty_cart_blank_name_counterexample :
  session_cart Demo.visitor = []
  /\ Demo.checkout Demo.env0 Demo.nameless_form Demo.world0 Demo.visitor
     = (SendError 400 "Missing required fields", Demo.world0, Demo.visitor)
  /\ (Demo.checkout Demo.env0 Demo.nameless_form Demo.world0 Demo.visitor).1.1
     <> EmptyCartError.
Proof.
  split; [reflexivity|]. split; [vm_compute; reflexivity|].
  vm_compute. discriminate.
Qed.

Lemma checkout_blank_phone_witness :
  Demo.checkout Demo.env0 Demo.blank_phone_form Demo.world0 Demo.reviewed
  = (ValidationError, Demo.world0, Demo.reviewed).
Proof.
  apply (checkout_blank_phone
           Demo.no_translations Demo.fill Demo.two_decimals
           Demo.env0 Demo.blank_phone_form Demo.world0 Demo.reviewed).
  vm_compute. reflexivity.
Defined.

Lemma cash_order_has_no_card_witness :
  param Demo.cash_form "card_number" = "4111111111111111"
  /\ exists o,
       orders (db (Demo.checkout Demo.env0 Demo.cash_form Demo.world0
                     Demo.reviewed).1.2)
       = orders (db Demo.world0) ++ [o]
       /\ card_number o = "".
Proof.
  split; [vm_compute; reflexivity|].
  destruct (cash_order_has_no_card
              Demo.no_translations Demo.fill Demo.two_decimals
              Demo.env0 Demo.cash_form Demo.world0 Demo.reviewed
              _ _ _ reviewed_outcome) as (o & Horders & _ & Hcard).
  - vm_compute. reflexivity.
  - exists o. split; [exact Horders | exact Hcard].
Defined.

Lemma validation_precedes_empty_cart_witness :
  Demo.checkout Demo.env0 Demo.nameless_form Demo.world0 Demo.visitor
  = (ValidationError, Demo.world0, Demo.visitor).
Proof.
  apply (validation_precedes_empty_cart
           Demo.no_translations Demo.fill Demo.two_decimals
           Demo.env0 Demo.nameless_form Demo.world0 Demo.visitor).
  - left. vm_compute. reflexivity.
  - reflexivity.
Defined.


(** C2, at a card payment: the audit row holds the sixteen characters of
    the card reference, while the mail of the same order shows its last
    four only. *)
Theorem audit_row_shows_whole_card_number :
  exists row mail,
    orders_csv (Demo.checkout Demo.env0 Demo.card_form Demo.world0 Demo.reviewed).1.2
    = Some [csv_header; row]
    /\ row !! 6%nat = Some "4111111111111111"
    /\ outbox (Demo.checkout Demo.env0 Demo.card_form Demo.world0 Demo.reviewed).1.2
       = [mail]
    /\ mask_card "4111111111111111" = "************1111"
    /\ payment_info "card" "4111111111111111"
       = nl +:+ "Payment method: card" +:+ nl +:+ "Card: ************1111" +:+ nl.
Proof. do 2 eexists. vm_compute. repeat split. Qed.

(** * Further properties of the handlers *)

(** ** Cart operations composed *)

Lemma cart_update_decrease_add pid (c : list cart_line) :
  Forall (fun item => 1 <= quantity item) c ->
  cart_update pid "decrease" (cart_add pid c) = c.
Proof.
  induction 1 as [|item rest Hq _ IH]; simpl.
  - by rewrite Z.eqb_refl.
  - destruct (product_id item =? pid) eqn:Heq; simpl; rewrite Heq.
    + destruct (Z.leb_spec (quantity item + 1 - 1) 0) as [Hle|_]; [lia|].
      destruct item as [i q]. simpl. do 2 f_equal. lia.
    + by rewrite IH.
Qed.

Lemma cart_update_increase_is_add pid (c : list cart_line) :
  pid ∈ ids c -> cart_update pid "increase" c = cart_add pid c.
Proof.
  induction c as [|item rest IH]; simpl; [by intros ?%elem_of_nil|].
  intros Hin. destruct (Z.eqb_spec (product_id item) pid) as [Heq|Hne]; [done|].
  apply elem_of_cons in Hin as [Heq|Hin]; [by symmetry in Heq|].
  by rewrite IH.
Qed.

Lemma lines_for_cart_update_other pid pid' action (c : list cart_line) :
  pid <> pid' -> lines_for pid' (cart_update pid action c) = lines_for pid' c.
Proof.
  intros Hne. unfold lines_for. induction c as [|item rest IH]; simpl; [done|].
  destruct (Z.eqb_spec (product_id item) pid) as [Heq|Hne'].
  - assert ((product_id item =? pid') = false) as Hother
      by (apply Z.eqb_neq; congruence).
    destruct (String.eqb action "increase"); [by simpl; rewrite Hother|].
    destruct (String.eqb action "decrease").
    + simpl. destruct (quantity item - 1 <=? 0); simpl; by rewrite ?Hother.
    + destruct (String.eqb action "remove"); simpl; by rewrite ?Hother.
  - simpl. by rewrite IH.
Qed.

Lemma cart_update_unknown_action pid action (c : list cart_line) :
  action <> "increase" -> action <> "decrease" -> action <> "remove" ->
  cart_update pid action c = c.
Proof.
  intros Hi%String.eqb_neq Hd%String.eqb_neq Hr%String.eqb_neq.
  induction c as [|item rest IH]; simpl; [done|].
  rewrite Hi, Hd, Hr, IH. by destruct (product_id item =? pid).
Qed.

(** X1. On a cart whose quantities are all at least 1, adding a product and
    then decreasing it gives the cart back: a line just created is dropped
    again, an existing line gets its quantity back. *)
Theorem add_then_decrease_restores (s : session) (pid : Z) :
  Forall (fun item => 1 <= quantity item) (session_cart s) ->
  session_cart (update_cart pid "decrease" (add_to_cart pid s)) = session_cart s.
Proof.
  intros Hpos. rewrite session_cart_update, session_cart_add.
  by apply cart_update_decrease_add.
Qed.

Lemma add_then_decrease_restores_witness :
  session_cart (update_cart 1 "decrease" (add_to_cart 1 Demo.shopper))
  = [CartLine 1 2].
Proof.
  apply (add_then_decrease_restores Demo.shopper 1).
  repeat constructor; simpl; lia.
Defined.

(** X2. For a product that has a line in the cart, the action increase of
    [handle_update_cart] and [handle_add_to_cart] give the same cart; for a
    product without a line, increase changes nothing while add appends a
    line of quantity 1. *)
Theorem increase_versus_add (s : session) (pid : Z) :
  (pid ∈ ids (session_cart s) ->
   session_cart (update_cart pid "increase" s) = session_cart (add_to_cart pid s))
  /\ (pid ∉ ids (session_cart s) ->
      session_cart (update_cart pid "increase" s) = session_cart s
      /\ session_cart (add_to_cart pid s) = session_cart s ++ [CartLine pid 1]).
Proof.
  rewrite session_cart_update, session_cart_add. split.
  - apply cart_update_increase_is_add.
  - intros Hout. split; [by apply cart_update_absent | by apply cart_add_absent].
Qed.

Lemma increase_versus_add_witness :
  session_cart (update_cart 1 "increase" Demo.shopper)
  = session_cart (add_to_cart 1 Demo.shopper)
  /\ session_cart (update_cart 4 "increase" Demo.shopper)
     = session_cart Demo.shopper.
Proof.
  split.
  - apply (increase_versus_add Demo.shopper 1). left.
  - apply (increase_versus_add Demo.shopper 4).
    intros Hin. apply list_elem_of_singleton in Hin. discriminate.
Defined.

(** X3. Adding or updating one product leaves the lines of every other
    product as they were. *)
Theorem other_products_untouched (s : session) (pid pid' : Z) (action : string) :
  pid <> pid' ->
  lines_for pid' (session_cart (add_to_cart pid s)) = lines_for pid' (session_cart s)
  /\ lines_for pid' (session_cart (update_cart pid action s))
     = lines_for pid' (session_cart s).
Proof.
  intros Hne. rewrite session_cart_update, session_cart_add. split.
  - by apply lines_for_cart_add_other.
  - by apply lines_for_cart_update_other.
Qed.

Lemma other_products_untouched_witness :
  lines_for 1 (session_cart (add_to_cart 2 Demo.shopper)) = [CartLine 1 2]
  /\ lines_for 1 (session_cart (update_cart 2 "remove" Demo.shopper))
     = [CartLine 1 2].
Proof.
  apply (other_products_untouched Demo.shopper 2 1 "remove"). discriminate.
Defined.

(** X4. An action other than increase, decrease and remove leaves the cart
    as it is, also for a product that has a line. *)
Theorem unknown_action_changes_nothing (s : session) (pid : Z) (action : string) :
  action <> "increase" -> action <> "decrease" -> action <> "remove" ->
  session_cart (update_cart pid action s) = session_cart s.
Proof.
  intros Hi Hd Hr. rewrite session_cart_update.
  by apply cart_update_unknown_action.
Qed.

Lemma unknown_action_changes_nothing_witness :
  session_cart (update_cart 1 "double" Demo.shopper) = [CartLine 1 2].
Proof.
  apply (unknown_action_changes_nothing Demo.shopper 1 "double"); discriminate.
Defined.

(** ** Routing of GET requests *)

Section RoutingFacts.

Context (py_int : string -> option Z) (serve_static : string -> response).

Implicit Types (d : database) (path : string) (params : query) (s : session).

(** What a GET handler can do to the session it is given: nothing, one add,
    one update, or the storing of the reviewed total. *)
Lemma route_cases d path params s :
  (route py_int serve_static d path params s).2 = s
  \/ (path = "/add_to_cart"
      /\ exists pid location,
           route py_int serve_static d path params s
           = (Redirect 302 location, add_to_cart pid s))
  \/ (path = "/update_cart"
      /\ exists pid action location,
           route py_int serve_static d path params s
           = (Redirect 302 location, update_cart pid action s))
  \/ (path = "/checkout"
      /\ exists t,
           review_total d (session_cart s) = Some t
           /\ route py_int serve_static d path params s
              = (Html 200,
                 {| lang := lang s; cart := cart s; checkout_total := Some t;
                    last_order_total := last_order_total s |})).
Proof.
  unfold route.
  destruct (String.prefix "/static/" path); [by left|].
  destruct (String.eqb path "/" || String.eqb path ""); [by left|].
  destruct (String.eqb path "/products").
  { left. unfold render_products. by destruct (sidebar_view d s). }
  destruct (String.eqb path "/product").
  { left. unfold render_product_detail.
    destruct (params !! "product_id") as [[text others]|]; [|done].
    destruct (py_int text) as [pid|]; [|done].
    destruct (sqlite_int pid); [|done].
    by destruct (product_table d !! pid). }
  destruct (String.eqb_spec path "/add_to_cart") as [->|_].
  { unfold handle_add_to_cart.
    destruct (params !! "product_id") as [[text others]|]; [|by left].
    destruct (py_int text) as [pid|]; [|by left].
    right. left. eauto. }
  destruct (String.eqb_spec path "/update_cart") as [->|_].
  { unfold handle_update_cart.
    destruct (params !! "product_id") as [[text others]|]; [|by left].
    destruct (params !! "action") as [[action others']|]; [|by left].
    destruct (py_int text) as [pid|]; [|by left].
    right. right. left. eauto. }
  destruct (String.eqb path "/cart").
  { left. unfold render_cart. by destruct (render_cart_view d s). }
  destruct (String.eqb_spec path "/checkout") as [->|_].
  { unfold render_checkout.
    destruct (session_cart s) as [|item rest] eqn:Hcart; [by left|].
    destruct (review_total d (item :: rest)) as [t|] eqn:Ht; [|by left].
    right. right. right. eauto. }
  destruct (String.eqb path "/confirmation"); [by left|].
  by destruct (_ || _); left.
Qed.

(** No GET handler changes the language or the last order total. *)
Lemma route_keeps_lang d path params s :
  lang (route py_int serve_static d path params s).2 = lang s
  /\ last_order_total (route py_int serve_static d path params s).2
     = last_order_total s.
Proof.
  destruct (route_cases d path params s)
    as [-> | [(_ & pid & loc & ->) | [(_ & pid & action & loc & ->)
           | (_ & t & _ & ->)]]]; done.
Qed.

(** The cart after a GET handler is the cart before it, or one add or one
    update away from it. *)
Lemma route_cart_reachable d path params s :
  cart_reachable (session_cart s) ->
  cart_reachable (session_cart (route py_int serve_static d path params s).2).
Proof.
  intros Hreach.
  destruct (route_cases d path params s)
    as [-> | [(_ & pid & loc & ->) | [(_ & pid & action & loc & ->)
           | (_ & t & _ & ->)]]]; simpl; try done.
  - rewrite session_cart_add. by constructor.
  - rewrite session_cart_update. by constructor.
Qed.

(** X5. A GET request changes the cart only on the paths [/add_to_cart] and
    [/update_cart], and the stored checkout total only on [/checkout]; it
    never changes the last order total. *)
Theorem get_changes_cart_on_cart_paths_only d path params s :
  (path <> "/add_to_cart" -> path <> "/update_cart" ->
   cart (route py_int serve_static d path params s).2 = cart s)
  /\ (path <> "/checkout" ->
      checkout_total (route py_int serve_static d path params s).2
      = checkout_total s)
  /\ last_order_total (route py_int serve_static d path params s).2
     = last_order_total s.
Proof.
  destruct (route_cases d path params s)
    as [-> | [(-> & pid & loc & ->) | [(-> & pid & action & loc & ->)
           | (-> & t & _ & ->)]]]; simpl; split_and!; done.
Qed.

(** X6. A GET request answered with an error leaves the session as it was
    when the handler got it: a refused add or update (product id missing or
    not a number, action missing), an unknown product page and an unknown
    path change neither the cart nor the stored totals. *)
Theorem get_error_keeps_session d path params s code text s' :
  route py_int serve_static d path params s = (SendError code text, s') ->
  s' = s.
Proof.
  intros Hroute.
  destruct (route_cases d path params s)
    as [Hsame | [(_ & pid & loc & Heq) | [(_ & pid & action & loc & Heq)
           | (_ & t & _ & Heq)]]];
    rewrite Hroute in *; simpl in *; congruence.
Qed.

End RoutingFacts.

Lemma get_changes_cart_on_cart_paths_only_witness :
  cart (Site.go Demo.shop "/checkout" ∅ Demo.shopper).2 = cart Demo.shopper
  /\ checkout_total
       (Site.go Demo.shop "/cart" ∅ Demo.reviewed).2
     = Some 30%float.
Proof.
  split.
  - apply (get_changes_cart_on_cart_paths_only
             Site.parse_int Site.no_static Demo.shop "/checkout" ∅ Demo.shopper);
      discriminate.
  - apply (get_changes_cart_on_cart_paths_only
             Site.parse_int Site.no_static Demo.shop "/cart" ∅ Demo.reviewed).
    discriminate.
Defined.

Lemma get_error_keeps_session_witness :
  (Site.go Demo.shop "/update_cart" (Demo.form [("product_id", "1")])
     Demo.shopper).2
  = Demo.shopper.
Proof.
  apply (get_error_keeps_session Site.parse_int Site.no_static Demo.shop
           "/update_cart" (Demo.form [("product_id", "1")]) Demo.shopper
           400 "Missing parameters").
  vm_compute. reflexivity.
Defined.

(** ** The session table *)

Section SessionTableFacts.

Context (py_int : string -> option Z) (serve_static : string -> response)
        (translations : gmap string (gmap string string))
        (py_format : string -> string -> string -> option string)
        (format_2f : float -> string).

Implicit Types (sessions : gmap string session) (cookie : option string)
               (fresh path : string) (params : query) (d : database).

(** The session of a request is the one named by its cookie, or the new
    one. *)
Lemma get_session_cases sessions cookie fresh :
  (exists c s, cookie = Some c /\ c <> "" /\ sessions !! c = Some s
               /\ get_session sessions cookie fresh = (sessions, c, s, None))
  \/ ((forall c, cookie = Some c -> c = "" \/ sessions !! c = None)
      /\ get_session sessions cookie fresh
         = (<[fresh := new_session]> sessions, fresh, new_session, Some fresh)).
Proof.
  unfold get_session. destruct cookie as [c|].
  - destruct (PyStr.falsy c) eqn:Hc.
    + right. split; [|done]. intros ? [= <-]. left. by apply falsy_spec.
    + destruct (sessions !! c) as [s|] eqn:Hs.
      * left. exists c, s. split_and!; try done. by apply falsy_false.
      * right. split; [|done]. intros ? [= <-]. by right.
  - right. split; [|done]. intros ? [=].
Qed.

(** X7. A request touches one entry of the session table: every session
    other than the one named by the cookie and the one possibly created
    under the fresh id is left as it was, by [do_GET] and by [do_POST]. *)
Theorem requests_touch_one_session sessions cookie fresh d env path params w other :
  other <> fresh -> cookie <> Some other ->
  (do_GET py_int serve_static sessions cookie fresh d path params).2 !! other
  = sessions !! other
  /\ (do_POST translations py_format format_2f sessions cookie fresh env path
        params w).1.2 !! other
     = sessions !! other.
Proof.
  intros Hfresh Hcookie. unfold do_GET, do_POST.
  destruct (get_session_cases sessions cookie fresh)
    as [(c & s & -> & _ & _ & ->) | [_ ->]].
  - assert (c <> other) by congruence. split.
    + destruct (route _ _ _ _ _ _) as [r s']. simpl. by rewrite lookup_insert_ne.
    + destruct (String.eqb path "/checkout"); [|done].
      destruct (handle_checkout_post _ _ _ _ _ _ _) as [[r w'] s']. simpl.
      by rewrite lookup_insert_ne.
  - split.
    + destruct (route _ _ _ _ _ _) as [r s']. simpl.
      by rewrite !lookup_insert_ne.
    + destruct (String.eqb path "/checkout"); [|done].
      destruct (handle_checkout_post _ _ _ _ _ _ _) as [[r w'] s']. simpl.
      by rewrite !lookup_insert_ne.
Qed.

(** X8. A GET request whose cookie names a session of the table works on
    that session: no cookie header is sent, and the session stored under
    that id afterwards carries the language of the query (the old one
    without a [lang] parameter), whatever the path and the answer. *)
Theorem do_GET_known_session sessions c s0 fresh d path params :
  c <> "" -> sessions !! c = Some s0 ->
  exists s',
    (do_GET py_int serve_static sessions (Some c) fresh d path params).2 !! c
    = Some s'
    /\ (do_GET py_int serve_static sessions (Some c) fresh d path params).1.2 = []
    /\ lang s' = match params !! "lang" with
                 | Some (v, _) => v
                 | None => lang s0
                 end.
Proof.
  intros Hc Hs0. unfold do_GET.
  destruct (get_session_cases sessions (Some c) fresh)
    as [(c' & s & [= <-] & _ & Hs & ->) | [Hunknown _]].
  - assert (s = s0) as -> by congruence.
    pose proof (route_keeps_lang py_int serve_static d path params
                  (set_lang params s0)) as [Hlang _].
    destruct (route _ _ _ _ _ _) as [r s']. simpl in *.
    exists s'. rewrite lookup_insert_eq. split_and!; [done| |done].
    by destruct r.
  - destruct (Hunknown c eq_refl) as [?|?]; congruence.
Qed.


(** A POST request on a path other than [/checkout] is answered 404
    and changes nothing: no session is created, the table and the stored
    data are as before. *)
Theorem do_POST_other_path sessions cookie fresh env path params w :
  path <> "/checkout" ->
  do_POST translations py_format format_2f sessions cookie fresh env path params w
  = (SendError 404 "Not Found", [], sessions, w).
Proof.
  intros Hpath%String.eqb_neq. unfold do_POST. by rewrite Hpath.
Qed.

(** X10. Every session that requests can produce has a cart with at most
    one line per product and with quantities of at least 1. *)
Theorem session_cart_invariant (s : session) :
  session_reachable py_int serve_static translations py_format format_2f s ->
  cart_wf (session_cart s)
  /\ Forall (fun item => 1 <= quantity item) (session_cart s).
Proof.
  intros Hreach.
  assert (cart_reachable (session_cart s)) as Hcart.
  { induction Hreach as [|d path params s _ IH|env params w s _ IH].
    - constructor.
    - apply route_cart_reachable.
      by replace (session_cart (set_lang params s)) with (session_cart s).
    - unfold handle_checkout_post.
      destruct (_ || _); [done|].
      destruct (session_cart s) eqn:Hc; [simpl; by rewrite Hc|].
      destruct (insert_order_items _ _ _); simpl; [constructor|by rewrite Hc]. }
  split; [by apply cart_reachable_wf | by apply cart_reachable_positive].
Qed.

End SessionTableFacts.

Lemma requests_touch_one_session_witness :
  (Site.get Site.one_session None "new" Demo.shop "/add_to_cart"
     (Demo.form [("product_id", "1")])).2 !! "abc"
  = Some Demo.shopper.
Proof.
  apply (requests_touch_one_session Site.parse_int Site.no_static
           Demo.no_translations Demo.fill Demo.two_decimals
           Site.one_session None "new" Demo.shop Demo.env0 "/add_to_cart"
           (Demo.form [("product_id", "1")]) Demo.world0 "abc");
    discriminate.
Defined.

Lemma do_GET_known_session_witness :
  exists s',
    (Site.get Site.one_session (Some "abc") "new" Demo.shop "/nowhere"
       (Demo.form [("lang", "en")])).2 !! "abc" = Some s'
    /\ lang s' = "en".
Proof.
  destruct (do_GET_known_session Site.parse_int Site.no_static
              Site.one_session "abc" Demo.shopper "new" Demo.shop "/nowhere"
              (Demo.form [("lang", "en")])) as (s' & Hs' & _ & Hlang).
  - discriminate.
  - reflexivity.
  - exists s'. split; [exact Hs' | exact Hlang].
Defined.


Lemma session_cart_invariant_witness :
  cart_wf
    (session_cart
       (Site.go Demo.shop "/add_to_cart"
          (Demo.form [("product_id", "1"); ("lang", "fr")])
          (set_lang (Demo.form [("product_id", "1"); ("lang", "fr")])
             new_session)).2).
Proof.
  apply (session_cart_invariant Site.parse_int Site.no_static
           Demo.no_translations Demo.fill Demo.two_decimals).
  apply reach_session_get. apply reach_session_new.
Defined.

(** ** The totals shown on the pages *)

Section PageTotals.

Implicit Types (products : gmap Z product) (c : list cart_line) (d : database)
               (s : session).

Lemma render_cart_loop_total products name_of c rows t :
  Forall (fun item => sqlite_int (product_id item) = true) c ->
  snd <$> render_cart_loop products name_of c rows t = review_loop products c t.
Proof.
  intros Hfit. revert rows t.
  induction Hfit as [|item rest Hitem _ IH]; intros rows t; simpl; [done|].
  rewrite Hitem. destruct (products !! product_id item) as [p|]; [|apply IH].
  destruct (int_to_float (quantity item)) as [q|]; [apply IH|done].
Qed.

Lemma sidebar_loop_total products name_of c entries t :
  Forall (fun item => sqlite_int (product_id item) = true) c ->
  snd <$> sidebar_loop products name_of c entries t = review_loop products c t.
Proof.
  intros Hfit. revert entries t.
  induction Hfit as [|item rest Hitem _ IH]; intros entries t; simpl; [done|].
  rewrite Hitem. destruct (products !! product_id item) as [p|]; [|apply IH].
  destruct (int_to_float (quantity item)) as [q|]; [apply IH|done].
Qed.

(** X11. For a cart whose product ids SQLite can bind, the cart page, the
    cart summary of the products page and the checkout page compute the
    same total (and fail together when a quantity is too large for a
    float). *)
Theorem pages_show_same_total d s :
  Forall (fun item => sqlite_int (product_id item) = true) (session_cart s) ->
  snd <$> render_cart_view d s = review_total d (session_cart s)
  /\ snd <$> sidebar_view d s = review_total d (session_cart s).
Proof.
  intros Hfit. unfold render_cart_view, sidebar_view, review_total.
  destruct (session_cart s) as [|item rest] eqn:Hcart; [done|].
  split; [by apply render_cart_loop_total | by apply sidebar_loop_total].
Qed.

Lemma review_loop_known products c t :
  Forall (fun item => sqlite_int (product_id item) = true) c ->
  review_loop products c t
  = review_loop products
      (List.filter (fun item => match products !! product_id item with
                                | Some _ => true
                                | None => false
                                end) c)
      t.
Proof.
  intros Hfit. revert t.
  induction Hfit as [|item rest Hitem _ IH]; intros t; simpl; [done|].
  rewrite Hitem.
  destruct (products !! product_id item) as [p|] eqn:Hp; simpl.
  - rewrite Hitem, Hp. destruct (int_to_float (quantity item)); [apply IH|done].
  - apply IH.
Qed.

(** X12. For a cart whose product ids SQLite can bind, the total of the
    checkout page is the total of the cart without the lines whose product
    is not in the catalog: such lines are skipped, wherever they stand in
    the cart. (On a product id that SQLite cannot bind the page raises
    instead: lemma [review_unbindable_raises].) *)
Theorem review_skips_unknown_products d c :
  Forall (fun item => sqlite_int (product_id item) = true) c ->
  review_total d c
  = review_total d
      (List.filter (fun item => match product_table d !! product_id item with
                                | Some _ => true
                                | None => false
                                end) c).
Proof. apply review_loop_known. Qed.

Lemma review_loop_unbindable products c t :
  Exists (fun item => sqlite_int (product_id item) = false) c ->
  review_loop products c t = None.
Proof.
  revert t. induction c as [|item rest IH]; intros t Hex;
    [by apply Exists_nil in Hex|].
  simpl. destruct (sqlite_int (product_id item)) eqn:Hid; [|done].
  apply Exists_cons in Hex as [Hbad|Hex]; [congruence|].
  destruct (products !! product_id item); [|by apply IH].
  destruct (int_to_float (quantity item)); [by apply IH|done].
Qed.

(** With a product id in the cart that SQLite cannot bind, the checkout
    page raises and stores no total. *)
Lemma review_unbindable_raises d s :
  Exists (fun item => sqlite_int (product_id item) = false) (session_cart s) ->
  render_checkout d s = (Unhandled "OverflowError", s).
Proof.
  intros Hex. unfold render_checkout.
  destruct (session_cart s) as [|item rest] eqn:Hcart;
    [by apply Exists_nil in Hex|].
  unfold review_total. by rewrite (review_loop_unbindable _ _ _ Hex).
Qed.



(** X14. Showing the checkout page twice is the same as showing it once:
    the second answer and session are those of the first. *)
Theorem render_checkout_idempotent d s :
  render_checkout d (render_checkout d s).2 = render_checkout d s.
Proof.
  unfold render_checkout at 2 3.
  destruct (session_cart s) as [|item rest] eqn:Hcart.
  - simpl. unfold render_checkout. by rewrite Hcart.
  - destruct (review_total d (item :: rest)) as [t|] eqn:Ht; simpl.
    + unfold render_checkout, session_cart in *. simpl. by rewrite Hcart, Ht.
    + unfold render_checkout. by rewrite Hcart, Ht.
Qed.

End PageTotals.

Lemma pages_show_same_total_witness :
  snd <$> render_cart_view Demo.shop Demo.shopper = Some 30%float
  /\ snd <$> sidebar_view Demo.shop Demo.shopper = Some 30%float.
Proof.
  apply (pages_show_same_total Demo.shop Demo.shopper).
  repeat constructor.
Defined.

Lemma review_skips_unknown_products_witness :
  review_total Demo.shop [CartLine 999 5; CartLine 1 2] = Some 30%float.
Proof.
  rewrite (review_skips_unknown_products Demo.shop
             [CartLine 999 5; CartLine 1 2]).
  - vm_compute. reflexivity.
  - repeat constructor.
Defined.


(** ** Checkout: what a submission can and cannot do *)

Section CheckoutEffects.

Context (translations : gmap string (gmap string string))
        (py_format : string -> string -> string -> option string)
        (format_2f : float -> string).

Implicit Types (env : environ) (params : query) (w : world) (s : session).

(** The messages that [send_order_email] hands over: none, or one, sent from
    the configured sender to the customer and then the vendor, and only with
    a customer address and complete SMTP settings. *)
Lemma send_order_email_cases env d customer_email customer_name vendor_email
    order_items total_amount payment_method card_number phone address lang :
  match send_order_email translations py_format format_2f env d customer_email
          customer_name vendor_email order_items total_amount payment_method
          card_number phone address lang with
  | None | Some [] => True
  | Some [m] =>
      customer_email <> ""
      /\ unset (SMTP_SERVER env) = false /\ unset (SMTP_USERNAME env) = false
      /\ unset (SMTP_PASSWORD env) = false
      /\ SENDER_EMAIL env = Some (from_addr m) /\ from_addr m <> ""
      /\ to_addrs m
         = customer_email
           :: (if unset vendor_email then [] else [default "" vendor_email])
  | Some (_ :: _ :: _) => False
  end.
Proof.
  unfold send_order_email.
  destruct (PyStr.falsy customer_email) eqn:Hce; [done|].
  destruct (unset (SMTP_SERVER env)) eqn:H1; [done|].
  destruct (unset (SMTP_USERNAME env)) eqn:H2; [done|].
  destruct (unset (SMTP_PASSWORD env)) eqn:H3; [done|].
  destruct (unset (SENDER_EMAIL env)) eqn:H4; [done|]. simpl.
  destruct (email_lines _ _ _ _) as [lines|]; [|done]. simpl.
  destruct (py_format _ "name" _) as [intro|]; [|done]. simpl.
  destruct (py_format _ "total" _) as [tot|]; [|done]. simpl.
  destruct (smtp_io_ok env); [|done].
  apply falsy_false in Hce. split_and!; try done.
  - simpl. destruct (SENDER_EMAIL env) as [x|]; [done|discriminate].
  - simpl. destruct (SENDER_EMAIL env) as [x|]; [|discriminate].
    simpl in *. by apply falsy_false.
Qed.

(** The four outcomes of a submission, with everything that is written in
    the last. *)
Lemma checkout_outcomes env params w s :
  handle_checkout_post translations py_format format_2f env params w s
  = (ValidationError, w, s)
  \/ handle_checkout_post translations py_format format_2f env params w s
     = (EmptyCartError, w, s)
  \/ handle_checkout_post translations py_format format_2f env params w s
     = (Unhandled "OverflowError", w, s)
  \/ (session_cart s <> []
      /\ (field params "name" <> "" /\ field params "phone" <> ""
          /\ field params "address" <> "" /\ field params "payment_method" <> "")
      /\ handle_checkout_post translations py_format format_2f env params w s
         = (Redirect 303 ("/confirmation?lang=" +:+ lang s),
            {| db := insert_order (db w)
                       (field params "name") (field params "address")
                       (if String.eqb (field params "payment_method") "card"
                        then field params "card_number" else "")
                       (default 0%float (checkout_total s))
                       (field params "phone") (field params "payment_method")
                       (field params "email")
                       (order_item_rows (product_table (db w))
                          (orders_seq (db w) + 1) (session_cart s));
               orders_csv :=
                 orders_csv (handle_checkout_post translations py_format format_2f
                               env params w s).1.2;
               outbox :=
                 outbox (handle_checkout_post translations py_format format_2f
                           env params w s).1.2 |},
            {| lang := lang s; cart := Some [];
               checkout_total := Some 0%float;
               last_order_total := Some (default 0%float (checkout_total s)) |})).
Proof.
  destruct (PyStr.falsy (field params "name")) eqn:Hn;
    [left; apply checkout_invalid; apply falsy_spec in Hn; tauto|].
  destruct (PyStr.falsy (field params "phone")) eqn:Hp;
    [left; apply checkout_invalid; apply falsy_spec in Hp; tauto|].
  destruct (PyStr.falsy (field params "address")) eqn:Ha;
    [left; apply checkout_invalid; apply falsy_spec in Ha; tauto|].
  destruct (PyStr.falsy (field params "payment_method")) eqn:Hm;
    [left; apply checkout_invalid; apply falsy_spec in Hm; tauto|].
  apply falsy_false in Hn, Hp, Ha, Hm.
  destruct (decide (session_cart s = [])) as [Hcart|Hcart].
  - right. left. by apply checkout_empty_cart.
  - destruct (insert_order_items (product_table (db w)) (orders_seq (db w) + 1)
                                 (session_cart s)) as [items|] eqn:Hitems.
    + right. right. right. split; [done|]. split; [done|].
      destruct (checkout_items_ok translations py_format format_2f env params
                  w s items) as (csv' & sent & Heq); try done.
      by rewrite Heq.
    + right. right. left. by apply checkout_raises.
Qed.

(** X15. Once a submission is confirmed, the same form sent again on the
    session it left is refused as [EmptyCartError] and writes nothing: the
    cart was emptied, so an order cannot be created twice by a replay. *)
Theorem checkout_replay_refused env params w s location w' s' env2 w2 :
  handle_checkout_post translations py_format format_2f env params w s
  = (Redirect 303 location, w', s') ->
  handle_checkout_post translations py_format format_2f env2 params w2 s'
  = (EmptyCartError, w2, s').
Proof.
  intros Hpost.
  destruct (checkout_outcomes env params w s)
    as [Heq | [Heq | [Heq | (_ & (Hn & Hp & Ha & Hm) & Heq)]]];
    rewrite Heq in Hpost; [discriminate.. |].
  injection Hpost as _ _ <-. by apply checkout_empty_cart.
Qed.

(** X16. After a confirmed submission the confirmation page shows the total
    of the order that was stored. *)
Theorem confirmation_shows_order_total env params w s location w' s' :
  handle_checkout_post translations py_format format_2f env params w s
  = (Redirect 303 location, w', s') ->
  exists o,
    orders (db w') = orders (db w) ++ [o]
    /\ confirmation_order_total format_2f s' = format_2f (total o) +:+ " TND".
Proof.
  intros Hpost.
  destruct (checkout_outcomes env params w s)
    as [Heq | [Heq | [Heq | (_ & _ & Heq)]]];
    rewrite Heq in Hpost; [discriminate.. |].
  injection Hpost as _ <- <-. eexists. split; reflexivity.
Qed.

(** X17. Whatever the submission and its outcome, stored data is only added
    to: the orders, the item rows, the audit rows and the sent mails of
    before are all kept, in place, and the catalog is not changed. *)
Theorem checkout_only_appends env params w s r w' s' :
  handle_checkout_post translations py_format format_2f env params w s
  = (r, w', s') ->
  orders (db w) `prefix_of` orders (db w')
  /\ order_items (db w) `prefix_of` order_items (db w')
  /\ product_table (db w') = product_table (db w)
  /\ outbox w `prefix_of` outbox w'
  /\ match orders_csv w with
     | Some rows => exists more, orders_csv w' = Some (rows ++ more)
     | None => True
     end.
Proof.
  intros Hpost.
  replace w' with
    (handle_checkout_post translations py_format format_2f env params w s).1.2
    by (by rewrite Hpost).
  clear Hpost.
  assert (match orders_csv w with
          | Some rows => exists more, orders_csv w = Some (rows ++ more)
          | None => True
          end) as Hsame.
  { destruct (orders_csv w) as [rows|]; [|done]. exists []. by rewrite app_nil_r. }
  destruct (checkout_outcomes env params w s)
    as [Heq | [Heq | [Heq | (Hc & Hvalid & _)]]];
    [rewrite Heq; simpl; by split_and!..|].
  destruct Hvalid as (Hn%falsy_false & Hp%falsy_false & Ha%falsy_false
                      & Hm%falsy_false).
  unfold handle_checkout_post. rewrite Hn, Hp, Ha, Hm. simpl.
  destruct (session_cart s) as [|item rest]; [done|].
  destruct (insert_order_items _ _ _) as [items|]; simpl;
    [|by split_and!].
  split_and!; try done; try by apply prefix_app_r.
  destruct (orders_csv w) as [rows|]; [|done].
  destruct (csv_io_ok env); simpl; [by eexists|].
  exists []. by rewrite app_nil_r.
Qed.

(** X18. The inserts of a submission keep the database consistent: order
    ids stay unique and below the counter, and every item row belongs to an
    order of the table and to a product of the catalog. *)
Theorem checkout_keeps_db_ok env params w s r w' s' :
  handle_checkout_post translations py_format format_2f env params w s
  = (r, w', s') ->
  db_ok (db w) -> db_ok (db w').
Proof.
  intros Hpost (Hseq & Hnodup & Hitems).
  replace w' with
    (handle_checkout_post translations py_format format_2f env params w s).1.2
    by (by rewrite Hpost).
  clear Hpost.
  destruct (checkout_outcomes env params w s)
    as [Heq | [Heq | [Heq | (_ & _ & Heq)]]]; rewrite Heq; simpl; [done..|].
  unfold db_ok, insert_order. simpl. rewrite map_app. simpl. split_and!.
  - apply Forall_app. split.
    + eapply Forall_impl; [exact Hseq|]. simpl. intros o Ho. lia.
    + repeat constructor. simpl. lia.
  - apply NoDup_app. split_and!; [done| |apply NoDup_singleton].
    intros x Hx ->%list_elem_of_singleton.
    apply list_elem_of_fmap in Hx as (o & Hid & Ho).
    rewrite Forall_forall in Hseq. apply Hseq in Ho. lia.
  - apply Forall_app. split.
    + eapply Forall_impl; [exact Hitems|]. simpl. intros i [Hin Hp].
      split; [|done]. apply elem_of_app. by left.
    + generalize (session_cart s). intros c.
      induction c as [|item rest IH]; simpl; [done|].
      destruct (product_table (db w) !! product_id item) as [p|] eqn:Hp; [|done].
      constructor; [|done]. simpl. split; [|by eexists].
      apply elem_of_app. right. by left.
Qed.

End CheckoutEffects.

Section AuditAndMail.

Context (translations : gmap string (gmap string string))
        (py_format : string -> string -> string -> option string)
        (format_2f : float -> string).

Implicit Types (env : environ) (params : query) (w : world) (s : session).

(** The audit file and the outbox after a confirmed submission. *)
Lemma checkout_confirmed_logs env params w s location w' s' :
  handle_checkout_post translations py_format format_2f env params w s
  = (Redirect 303 location, w', s') ->
  orders_csv w'
  = (if csv_io_ok env
     then audit_append (orders_csv w)
            (audit_row format_2f env (db w') (field params "name")
               (field params "email") (field params "phone")
               (field params "address") (field params "payment_method")
               (field params "card_number") (session_cart s)
               (default 0%float (checkout_total s)))
     else orders_csv w)
  /\ outbox w'
     = outbox w
       ++ default []
            (send_order_email translations py_format format_2f env (db w')
               (field params "email") (field params "name") (VENDOR_EMAIL env)
               (session_cart s) (default 0%float (checkout_total s))
               (field params "payment_method")
               (if String.eqb (field params "payment_method") "card"
                then field params "card_number" else "")
               (field params "phone") (field params "address") (lang s)).
Proof.
  intros Hpost.
  destruct (checkout_confirmed_inv _ _ _ _ _ _ _ _ _ _ _ Hpost)
    as [(Hn%falsy_false & Hp%falsy_false & Ha%falsy_false & Hm%falsy_false) Hc].
  unfold handle_checkout_post in Hpost. rewrite Hn, Hp, Ha, Hm in Hpost.
  simpl in Hpost. destruct (session_cart s) as [|item rest]; [done|].
  destruct (insert_order_items _ _ _) as [items|]; [|done].
  injection Hpost as _ <- _. by simpl.
Qed.

(** X19. A confirmed submission with a writable audit file stores one order
    and appends exactly one row to the file, after the header row when the
    file is new; the row has one field per header column, starts with the
    time stamp, carries the name, e-mail address, phone, address and payment
    method of the stored order, and ends with the formatted total of that
    order. *)
Theorem audit_row_per_order env params w s location w' s' :
  handle_checkout_post translations py_format format_2f env params w s
  = (Redirect 303 location, w', s') ->
  csv_io_ok env = true ->
  exists o row,
    orders (db w') = orders (db w) ++ [o]
    /\ orders_csv w' = match orders_csv w with
                       | None => Some [csv_header; row]
                       | Some rows => Some (rows ++ [row])
                       end
    /\ length row = length csv_header
    /\ row !! 0%nat = Some (now env)
    /\ row !! 1%nat = Some (customer_name o)
    /\ row !! 2%nat = Some (customer_email o)
    /\ row !! 3%nat = Some (customer_phone o)
    /\ row !! 4%nat = Some (customer_address o)
    /\ row !! 5%nat = Some (payment_method o)
    /\ row !! 8%nat = Some (format_2f (total o))
    /\ row !! 8%nat = Some (format_2f (default 0%float (checkout_total s))).
Proof.
  intros Hpost Hio.
  destruct (checkout_confirmed_logs _ _ _ _ _ _ _ Hpost) as [-> _].
  destruct (checkout_confirmed_eq translations py_format format_2f env params
              w s _ _ _ _ Hpost) as (csv' & sent & Heq).
  rewrite Heq in Hpost. injection Hpost as _ <- _.
  rewrite Hio. do 2 eexists. split; [reflexivity|].
  split; [reflexivity|]. split_and!; reflexivity.
Qed.

(** X20. The answer, the database and the session of a submission do not
    depend on the environment: a failing audit file, missing SMTP settings
    or a failing SMTP exchange change neither the outcome nor the order;
    with a failing audit file the file is left as it was. *)
Theorem checkout_outcome_independent_of_io env1 env2 params w s
    r1 w1 s1 r2 w2 s2 :
  handle_checkout_post translations py_format format_2f env1 params w s
  = (r1, w1, s1) ->
  handle_checkout_post translations py_format format_2f env2 params w s
  = (r2, w2, s2) ->
  r1 = r2 /\ db w1 = db w2 /\ s1 = s2
  /\ (csv_io_ok env1 = false -> orders_csv w1 = orders_csv w).
Proof.
  unfold handle_checkout_post.
  destruct (_ || _); [by intros [= <- <- <-] [= <- <- <-]|].
  destruct (session_cart s) as [|item rest];
    [by intros [= <- <- <-] [= <- <- <-]|].
  destruct (insert_order_items _ _ _) as [items|];
    [|by intros [= <- <- <-] [= <- <- <-]].
  intros [= <- <- <-] [= <- <- <-]. simpl.
  split_and!; try done. by intros ->.
Qed.

(** X21. Without a customer address, or with an SMTP setting missing or
    empty (server, user name, password, and a sender that falls back to the
    user name), no mail is sent, whatever the outcome of the submission. *)
Theorem no_mail_without_transport env params w s r w' s' :
  handle_checkout_post translations py_format format_2f env params w s
  = (r, w', s') ->
  field params "email" = ""
  \/ unset (SMTP_SERVER env) = true \/ unset (SMTP_USERNAME env) = true
  \/ unset (SMTP_PASSWORD env) = true ->
  outbox w' = outbox w.
Proof.
  intros Hpost Hmissing.
  replace w' with
    (handle_checkout_post translations py_format format_2f env params w s).1.2
    by (by rewrite Hpost).
  clear Hpost. unfold handle_checkout_post.
  destruct (_ || _); [done|].
  destruct (session_cart s) as [|item rest]; [done|].
  destruct (insert_order_items _ _ _) as [items|]; [|done]. simpl.
  unfold send_order_email.
  assert (PyStr.falsy (field params "email") || unset (SMTP_SERVER env)
          || unset (SMTP_USERNAME env) || unset (SMTP_PASSWORD env)
          || unset (SENDER_EMAIL env) = true) as ->.
  { destruct Hmissing as [-> | [-> | [-> | ->]]]; simpl;
      rewrite ?orb_true_r; reflexivity. }
  simpl. by rewrite app_nil_r.
Qed.

(** X22. A submission sends at most one mail. A mail that is sent goes from
    the configured sender to the customer address of the form first, then
    to the vendor address when one is set. *)
Theorem checkout_sends_at_most_one_mail env params w s r w' s' :
  handle_checkout_post translations py_format format_2f env params w s
  = (r, w', s') ->
  outbox w' = outbox w
  \/ exists m,
       outbox w' = outbox w ++ [m]
       /\ SENDER_EMAIL env = Some (from_addr m)
       /\ to_addrs m
          = field params "email"
            :: (if unset (VENDOR_EMAIL env) then []
                else [default "" (VENDOR_EMAIL env)]).
Proof.
  intros Hpost.
  replace w' with
    (handle_checkout_post translations py_format format_2f env params w s).1.2
    by (by rewrite Hpost).
  clear Hpost.
  destruct (checkout_outcomes translations py_format format_2f env params w s)
    as [Heq | [Heq | [Heq | (_ & _ & Heq)]]]; [rewrite Heq; by left..|].
  destruct (checkout_confirmed_logs _ _ _ _ _ _ _ Heq) as [_ Hout].
  simpl in Hout. rewrite Hout.
  match goal with
  | |- context [send_order_email ?t ?f ?g ?e ?d ?ce ?cn ?ve ?it ?tot ?pm ?cd ?ph ?ad ?lg] =>
      pose proof (send_order_email_cases t f g e d ce cn ve it tot pm cd ph ad lg)
        as Hcases;
      destruct (send_order_email t f g e d ce cn ve it tot pm cd ph ad lg)
        as [[|m [|m2 rest]]|]
  end; simpl; rewrite ?app_nil_r; try by left.
  right. exists m. destruct Hcases as (_ & _ & _ & _ & Hfrom & _ & Hto). done.
Qed.

(** X23. The mail of an order shows of the card reference its length and
    its last four characters only: two card references of the same length
    and with the same last four characters give the same mail. *)
Theorem mail_shows_last_four_only env d customer_email customer_name
    vendor_email order_items total_amount payment_method (a b : string)
    phone address lang :
  String.length a = String.length b ->
  PyStr.last_chars 4 a = PyStr.last_chars 4 b ->
  send_order_email translations py_format format_2f env d customer_email
    customer_name vendor_email order_items total_amount payment_method a
    phone address lang
  = send_order_email translations py_format format_2f env d customer_email
      customer_name vendor_email order_items total_amount payment_method b
      phone address lang.
Proof.
  intros Hlen Hlast. apply send_order_email_masked.
  by apply mask_card_hides.
Qed.

End AuditAndMail.

(** ** Masking, translation and blank fields *)

Lemma list_ascii_of_string_app (a b : string) :
  list_ascii_of_string (a +:+ b) = list_ascii_of_string a ++ list_ascii_of_string b.
Proof. induction a as [|c a IH]; simpl; [done|]. by rewrite IH. Qed.

Lemma length_list_ascii_of_string (a : string) :
  length (list_ascii_of_string a) = String.length a.
Proof. induction a as [|c a IH]; simpl; [done|]. by rewrite IH. Qed.

Lemma mask_card_chars (a : string) :
  list_ascii_of_string (mask_card a)
  = List.repeat "*"%char (String.length a - 4)
    ++ skipn (String.length a - 4) (list_ascii_of_string a).
Proof.
  unfold mask_card. destruct a as [|c rest]; [done|].
  cbn [PyStr.falsy]. unfold PyStr.repeat_char, PyStr.last_chars, PyStr.len.
  rewrite list_ascii_of_string_app, !list_ascii_of_string_of_list_ascii.
  do 2 f_equal. lia.
Qed.

(** X24. The masked card reference has the length of the reference; all its
    characters before the last four are stars, and its last four characters
    are those of the reference (a reference of four characters or fewer is
    shown whole). *)
Theorem mask_card_shape (a : string) :
  String.length (mask_card a) = String.length a
  /\ Forall (fun c => c = "*"%char)
            (take (String.length a - 4) (list_ascii_of_string (mask_card a)))
  /\ skipn (String.length a - 4) (list_ascii_of_string (mask_card a))
     = skipn (String.length a - 4) (list_ascii_of_string a)
  /\ ((String.length a <= 4)%nat -> mask_card a = a).
Proof.
  pose proof (mask_card_chars a) as Hchars.
  pose proof (length_list_ascii_of_string a) as Hlen.
  assert (length (List.repeat "*"%char (String.length a - 4))
          = (String.length a - 4)%nat) as Hstars by apply repeat_length.
  split_and!.
  - rewrite <- (length_list_ascii_of_string (mask_card a)), Hchars.
    rewrite length_app, Hstars, length_skipn. lia.
  - rewrite Hchars, take_app_length'; [|done].
    apply Forall_forall. intros c Hc. apply list_elem_of_In in Hc.
    by apply repeat_spec in Hc.
  - rewrite Hchars. by rewrite drop_app_length'.
  - apply mask_card_short.
Qed.

(** X25. [translate] falls back as documented: a key that the table does
    not hold is answered by the key itself, and a key without a text for
    the language is answered as for French. *)
Theorem translate_falls_back (translations : gmap string (gmap string string))
    (key lang : string) :
  (translations !! key = None -> translate translations key lang = key)
  /\ (default ∅ (translations !! key) !! lang = None ->
      translate translations key lang = translate translations key "fr").
Proof.
  unfold translate, or_else. split.
  - intros ->. simpl. by rewrite lookup_empty.
  - intros ->. simpl.
    destruct (default ∅ (translations !! key) !! "fr") as [text|] eqn:Hfr;
      simpl; [|done].
    by destruct text.
Qed.

(** X26. [translate] never answers an empty text for a key that is not
    empty, whatever the table holds. *)
Theorem translate_never_empty (translations : gmap string (gmap string string))
    (key lang : string) :
  key <> "" -> translate translations key lang <> "".
Proof.
  intros Hkey. unfold translate, or_else.
  destruct (default ∅ (translations !! key) !! lang) as [a|]; simpl.
  - destruct (PyStr.falsy a) eqn:Ha.
    + destruct (default ∅ (translations !! key) !! "fr") as [b|]; [|done].
      destruct (PyStr.falsy b) eqn:Hb; [done|]. by apply falsy_false.
    + rewrite Ha. by apply falsy_false.
  - destruct (default ∅ (translations !! key) !! "fr") as [b|]; [|done].
    destruct (PyStr.falsy b) eqn:Hb; [done|]. by apply falsy_false.
Qed.

Lemma strip_blank (a : string) :
  Forall (fun c => PyStr.is_space c = true) (list_ascii_of_string a) ->
  PyStr.strip a = "".
Proof.
  unfold PyStr.strip. induction a as [|c a IH]; simpl; [done|].
  intros [Hc Ha]%Forall_cons. rewrite Hc. by apply IH.
Qed.

(** X27. A submission in which a required field (name, phone, address or
    payment method) is absent or made of whitespace only is refused as
    [ValidationError], and nothing is written. *)
Theorem checkout_blank_required_field
    (translations : gmap string (gmap string string))
    (py_format : string -> string -> string -> option string)
    (format_2f : float -> string) env (params : query) w s (key : string) :
  key ∈ ["name"; "phone"; "address"; "payment_method"] ->
  Forall (fun c => PyStr.is_space c = true)
         (list_ascii_of_string (param params key)) ->
  handle_checkout_post translations py_format format_2f env params w s
  = (ValidationError, w, s).
Proof.
  intros Hkey Hblank. apply strip_blank in Hblank.
  apply checkout_invalid. fold (field params key) in Hblank.
  repeat (apply elem_of_cons in Hkey as [-> | Hkey]; [tauto|]).
  by apply elem_of_nil in Hkey.
Qed.

Lemma translate_falls_back_witness :
  translate Demo.no_translations "nav_home" "en" = "nav_home".
Proof.
  apply (translate_falls_back Demo.no_translations "nav_home" "en").
  reflexivity.
Defined.

Lemma translate_never_empty_witness :
  translate {[ "total" := {[ "fr" := "" ]} ]} "total" "fr" <> "".
Proof.
  apply (translate_never_empty {[ "total" := {[ "fr" := "" ]} ]} "total" "fr").
  discriminate.
Defined.

Lemma checkout_blank_required_field_witness :
  Demo.checkout Demo.env0 Demo.nameless_form Demo.world0 Demo.reviewed
  = (ValidationError, Demo.world0, Demo.reviewed).
Proof.
  apply (checkout_blank_required_field Demo.no_translations Demo.fill
           Demo.two_decimals Demo.env0 Demo.nameless_form Demo.world0
           Demo.reviewed "name").
  - left.
  - vm_compute. constructor.
Defined.

(** ** Runs of the further properties on the concrete shop *)

Lemma outcome_eta {A B C : Type} (x : A * B * C) : x = (x.1.1, x.1.2, x.2).
Proof. by destruct x as [[? ?] ?]. Qed.

Lemma checkout_replay_refused_witness :
  Demo.checkout Demo.env0 Demo.cash_form
    (Demo.checkout Demo.env0 Demo.cash_form Demo.world0 Demo.reviewed).1.2
    (Demo.checkout Demo.env0 Demo.cash_form Demo.world0 Demo.reviewed).2
  = (EmptyCartError,
     (Demo.checkout Demo.env0 Demo.cash_form Demo.world0 Demo.reviewed).1.2,
     (Demo.checkout Demo.env0 Demo.cash_form Demo.world0 Demo.reviewed).2).
Proof.
  exact (checkout_replay_refused Demo.no_translations Demo.fill
           Demo.two_decimals Demo.env0 Demo.cash_form Demo.world0 Demo.reviewed
           _ _ _ Demo.env0 _ reviewed_outcome).
Defined.

Lemma confirmation_shows_order_total_witness :
  exists o,
    orders (db (Demo.checkout Demo.env0 Demo.cash_form Demo.world0
                  Demo.reviewed).1.2) = [o]
    /\ total o = 30%float
    /\ confirmation_order_total Demo.two_decimals
         (Demo.checkout Demo.env0 Demo.cash_form Demo.world0 Demo.reviewed).2
       = Demo.two_decimals (total o) +:+ " TND".
Proof.
  destruct (confirmation_shows_order_total Demo.no_translations Demo.fill
              Demo.two_decimals Demo.env0 Demo.cash_form Demo.world0
              Demo.reviewed _ _ _ reviewed_outcome) as (o & Horders & Hshown).
  exists o. split; [exact Horders|]. split; [|exact Hshown].
  vm_compute in Horders. injection Horders as <-. reflexivity.
Defined.

Lemma checkout_keeps_db_ok_witness :
  db_ok (db (Demo.checkout Demo.env0 Demo.cash_form Demo.world0 Demo.reviewed).1.2).
Proof.
  apply (checkout_keeps_db_ok Demo.no_translations Demo.fill Demo.two_decimals
           Demo.env0 Demo.cash_form Demo.world0 Demo.reviewed
           _ _ _ reviewed_outcome).
  split_and!; simpl; [constructor | apply NoDup_nil_2 | constructor].
Defined.

Lemma audit_row_per_order_witness :
  exists o row,
    orders_csv (Demo.checkout Demo.env0 Demo.cash_form Demo.world0
                  Demo.reviewed).1.2
    = Some [csv_header; row]
    /\ length row = 9%nat
    /\ row !! 8%nat = Some (Demo.two_decimals (total o)).
Proof.
  destruct (audit_row_per_order Demo.no_translations Demo.fill
              Demo.two_decimals Demo.env0 Demo.cash_form Demo.world0
              Demo.reviewed _ _ _ reviewed_outcome eq_refl)
    as (o & row & _ & Hfile & Hlen & _ & _ & _ & _ & _ & _ & Htotal & _).
  exists o, row. split; [exact Hfile|]. split; [exact Hlen | exact Htotal].
Defined.

Lemma checkout_outcome_independent_of_io_witness :
  (Demo.checkout
     {| SMTP_SERVER := None; SMTP_USERNAME := None; SMTP_PASSWORD := None;
        SENDER_EMAIL_VAR := None; VENDOR_EMAIL := None; now := "";
        csv_io_ok := false; smtp_io_ok := false |}
     Demo.cash_form Demo.world0 Demo.reviewed).1.1
  = Redirect 303 "/confirmation?lang=fr"
  /\ orders_csv
       (Demo.checkout
          {| SMTP_SERVER := None; SMTP_USERNAME := None; SMTP_PASSWORD := None;
             SENDER_EMAIL_VAR := None; VENDOR_EMAIL := None; now := "";
             csv_io_ok := false; smtp_io_ok := false |}
          Demo.cash_form Demo.world0 Demo.reviewed).1.2
     = None.
Proof.
  destruct (checkout_outcome_independent_of_io Demo.no_translations Demo.fill
              Demo.two_decimals
              {| SMTP_SERVER := None; SMTP_USERNAME := None;
                 SMTP_PASSWORD := None; SENDER_EMAIL_VAR := None;
                 VENDOR_EMAIL := None; now := ""; csv_io_ok := false;
                 smtp_io_ok := false |}
              Demo.env0 Demo.cash_form Demo.world0 Demo.reviewed
              _ _ _ _ _ _ (outcome_eta _) reviewed_outcome)
    as (Hanswer & _ & _ & Hfile).
  split; [exact Hanswer | exact (Hfile eq_refl)].
Defined.

Lemma checkout_only_appends_witness :
  orders (db Demo.world0)
  `prefix_of`
  orders (db (Demo.checkout Demo.env0 Demo.cash_form Demo.world0
                Demo.reviewed).1.2).
Proof.
  apply (checkout_only_appends Demo.no_translations Demo.fill Demo.two_decimals
           Demo.env0 Demo.cash_form Demo.world0 Demo.reviewed
           _ _ _ reviewed_outcome).
Defined.

Lemma checkout_sends_at_most_one_mail_witness :
  outbox (Demo.checkout Demo.env0 Demo.card_form Demo.world0 Demo.reviewed).1.2
  = outbox Demo.world0
  \/ exists m,
       outbox (Demo.checkout Demo.env0 Demo.card_form Demo.world0
                 Demo.reviewed).1.2
       = outbox Demo.world0 ++ [m]
       /\ SENDER_EMAIL Demo.env0 = Some (from_addr m)
       /\ to_addrs m = ["a@example.org"].
Proof.
  apply (checkout_sends_at_most_one_mail Demo.no_translations Demo.fill
           Demo.two_decimals Demo.env0 Demo.card_form Demo.world0 Demo.reviewed
           _ _ _ (outcome_eta _)).
Defined.

Lemma no_mail_without_transport_witness :
  outbox (Demo.checkout Demo.env0 Demo.cash_form Demo.world0 Demo.reviewed).1.2
  = [].
Proof.
  apply (no_mail_without_transport Demo.no_translations Demo.fill
           Demo.two_decimals Demo.env0 Demo.cash_form Demo.world0 Demo.reviewed
           _ _ _ reviewed_outcome).
  left. vm_compute. reflexivity.
Defined.

Lemma mail_shows_last_four_only_witness :
  send_order_email Demo.no_translations Demo.fill Demo.two_decimals Demo.env0
    Demo.shop "a@example.org" "A" None [CartLine 1 2] 30%float "card"
    "4111111111111111" "123" "X" "fr"
  = send_order_email Demo.no_translations Demo.fill Demo.two_decimals Demo.env0
      Demo.shop "a@example.org" "A" None [CartLine 1 2] 30%float "card"
      "5500005555551111" "123" "X" "fr".
Proof.
  apply (mail_shows_last_four_only Demo.no_translations Demo.fill
           Demo.two_decimals); reflexivity.
Defined.

Lemma mask_card_shape_witness : mask_card "123" = "123".
Proof. apply (mask_card_shape "123"). simpl. lia. Defined.

Lemma do_POST_other_path_witness :
  Site.post Site.one_session None "new" Demo.env0 "/cart" Demo.cash_form
    Demo.world0
  = (SendError 404 "Not Found", [], Site.one_session, Demo.world0).
Proof.
  apply (do_POST_other_path Demo.no_translations Demo.fill Demo.two_decimals).
  discriminate.
Defined.

(** ** Where the total of an order comes from *)

Section StoredTotal.

Context (py_int : string -> option Z) (serve_static : string -> response)
        (translations : gmap string (gmap string string))
        (py_format : string -> string -> string -> option string)
        (format_2f : float -> string).

Implicit Types (env : environ) (params : query) (w : world) (s : session)
               (d : database).

Local Abbreviation quiet :=
  (quiet_step py_int serve_static translations py_format format_2f).

(** On the path [/checkout], [do_GET] calls [render_checkout]. *)
Lemma route_checkout d params s :
  route py_int serve_static d "/checkout" params s = render_checkout d s.
Proof. reflexivity. Qed.

(** A quiet request leaves the stored checkout total as it was. *)
Lemma quiet_step_keeps_total s s' :
  quiet s s' -> checkout_total s' = checkout_total s.
Proof.
  intros [d path params s0 r s1 Hroute Hpage | env params w s0 r w1 s1 Hpost Hr].
  - destruct (route_cases py_int serve_static d path params (set_lang params s0))
      as [Hsame | [(_ & pid & loc & Heq) | [(_ & pid & action & loc & Heq)
             | (Hpath & t & _ & Heq)]]];
      rewrite Hroute in *; simpl in *.
    + by subst s1.
    + by injection Heq as _ ->.
    + by injection Heq as _ ->.
    + injection Heq as -> _. by destruct (Hpage Hpath).
  - destruct (checkout_outcomes translations py_format format_2f env params w s0)
      as [Heq | [Heq | [Heq | (_ & _ & Heq)]]];
      rewrite Hpost in Heq; injection Heq as Hr' _ Hs; subst; try done.
    by destruct (Hr _ eq_refl).
Qed.

Lemma quiet_steps_keep_total s s' :
  rtc quiet s s' -> checkout_total s' = checkout_total s.
Proof.
  induction 1 as [|s1 s2 s3 Hstep _ IH]; [done|].
  by rewrite IH, (quiet_step_keeps_total _ _ Hstep).
Qed.

(** The three histories of a stored checkout total: nothing but quiet
    requests since the session was created, or since a checkout page was
    shown, or since a submission was confirmed. *)
Local Abbreviation never_reviewed s := (rtc quiet new_session s).
Local Abbreviation last_reviewed s :=
  (exists d0 s0 s1, render_checkout d0 s0 = (Html 200, s1) /\ rtc quiet s1 s).
Local Abbreviation last_confirmed s :=
  (exists env0 params0 w0 s0 location0 w1 s1,
     handle_checkout_post translations py_format format_2f env0 params0 w0 s0
     = (Redirect 303 location0, w1, s1)
     /\ rtc quiet s1 s).

Lemma history_quiet_step s s' :
  quiet s s' ->
  never_reviewed s \/ last_reviewed s \/ last_confirmed s ->
  never_reviewed s' \/ last_reviewed s' \/ last_confirmed s'.
Proof.
  intros Hstep [Hnew | [(d0 & s0 & s1 & Hpage & Hquiet)
                       | (env0 & params0 & w0 & s0 & loc0 & w1 & s1 & Hpost & Hquiet)]].
  - left. by eapply rtc_r.
  - right. left. exists d0, s0, s1. split; [done|]. by eapply rtc_r.
  - right. right. exists env0, params0, w0, s0, loc0, w1, s1.
    split; [done|]. by eapply rtc_r.
Qed.

(** Every session that requests can produce has one of these histories. *)
Lemma checkout_total_history s :
  session_reachable py_int serve_static translations py_format format_2f s ->
  never_reviewed s \/ last_reviewed s \/ last_confirmed s.
Proof.
  induction 1 as [|d path params s _ IH|env params w s _ IH].
  - by left.
  - destruct (String.eqb_spec path "/checkout") as [->|Hpath].
    + rewrite route_checkout.
      destruct (render_checkout d (set_lang params s)) as [r s'] eqn:Hpage.
      simpl. unfold render_checkout in Hpage.
      destruct (session_cart (set_lang params s)) as [|item rest] eqn:Hcart.
      * injection Hpage as <- <-.
        apply (history_quiet_step s); [|done].
        apply (quiet_get _ _ _ _ _ d "/checkout" params s
                 (Redirect 302 ("/cart?lang=" +:+ lang (set_lang params s)))).
        -- rewrite route_checkout. unfold render_checkout. by rewrite Hcart.
        -- done.
      * destruct (review_total d (item :: rest)) as [t|] eqn:Ht.
        -- right. left. exists d, (set_lang params s), s'.
           split; [|done]. unfold render_checkout. rewrite Hcart, Ht.
           by injection Hpage as <- <-.
        -- injection Hpage as <- <-.
           apply (history_quiet_step s); [|done].
           apply (quiet_get _ _ _ _ _ d "/checkout" params s
                    (Unhandled "OverflowError")).
           ++ rewrite route_checkout. unfold render_checkout.
              by rewrite Hcart, Ht.
           ++ done.
    + apply (history_quiet_step s); [|done].
      eapply quiet_get; [apply surjective_pairing|done].
  - destruct (handle_checkout_post translations py_format format_2f env params w s)
      as [[r w'] s'] eqn:Hpost. simpl.
    destruct (checkout_outcomes translations py_format format_2f env params w s)
      as [Heq | [Heq | [Heq | (_ & _ & Heq)]]].
    + apply (history_quiet_step s); [|done].
      eapply quiet_post; [exact Hpost|]. rewrite Hpost in Heq.
      injection Heq as -> _ _. done.
    + apply (history_quiet_step s); [|done].
      eapply quiet_post; [exact Hpost|]. rewrite Hpost in Heq.
      injection Heq as -> _ _. done.
    + apply (history_quiet_step s); [|done].
      eapply quiet_post; [exact Hpost|]. rewrite Hpost in Heq.
      injection Heq as -> _ _. done.
    + right. right. rewrite Hpost in Heq. injection Heq as -> _ _.
      exists env, params, w, s, ("/confirmation?lang=" +:+ lang s), w', s'.
      by split.
Qed.

(** C1, as amended. A confirmed order carries the total found in the
    session under ['checkout_total'] (0.0 without that key), whatever the
    form holds: two forms confirmed from the same state store the same
    total. That value is left as it is by every request other than a
    checkout page that is shown and a confirmed submission. So the total of
    the order is the total that the last shown checkout page computed, for
    the cart and the catalog it saw, when no submission was confirmed
    since (in particular the page's total of the submitted cart when the
    session is the one the page left); it is 0.0 when a submission was
    confirmed since the last shown checkout page, and 0.0 when no checkout
    page was ever shown. A session that requests can produce has one of
    these three histories. *)
Theorem order_total_is_session_total env params w s location w' s' :
  handle_checkout_post translations py_format format_2f env params w s
  = (Redirect 303 location, w', s') ->
  exists o,
    orders (db w') = orders (db w) ++ [o]
    /\ total o = default 0%float (checkout_total s)
    /\ (forall env2 params2 location2 w2 s2,
          handle_checkout_post translations py_format format_2f env2 params2 w s
          = (Redirect 303 location2, w2, s2) ->
          exists o2, orders (db w2) = orders (db w) ++ [o2]
                     /\ total o2 = total o)
    /\ (forall s0, render_checkout (db w) s0 = (Html 200, s) ->
          review_total (db w) (session_cart s) = Some (total o))
    /\ (forall d0 s0 s1,
          render_checkout d0 s0 = (Html 200, s1) ->
          rtc (quiet_step py_int serve_static translations py_format format_2f)
              s1 s ->
          review_total d0 (session_cart s0) = Some (total o))
    /\ (forall env0 params0 w0 s0 location0 w1 s1,
          handle_checkout_post translations py_format format_2f env0 params0 w0 s0
          = (Redirect 303 location0, w1, s1) ->
          rtc (quiet_step py_int serve_static translations py_format format_2f)
              s1 s ->
          total o = 0%float)
    /\ (rtc (quiet_step py_int serve_static translations py_format format_2f)
            new_session s ->
        total o = 0%float)
    /\ (session_reachable py_int serve_static translations py_format format_2f s ->
        rtc (quiet_step py_int serve_static translations py_format format_2f)
            new_session s
        \/ (exists d0 s0 s1,
              render_checkout d0 s0 = (Html 200, s1)
              /\ rtc (quiet_step py_int serve_static translations py_format
                                 format_2f) s1 s)
        \/ (exists env0 params0 w0 s0 location0 w1 s1,
              handle_checkout_post translations py_format format_2f env0
                params0 w0 s0
              = (Redirect 303 location0, w1, s1)
              /\ rtc (quiet_step py_int serve_static translations py_format
                                 format_2f) s1 s)).
Proof.
  intros Hpost.
  destruct (checkout_confirmed_eq translations py_format format_2f env params
              w s _ _ _ _ Hpost) as (csv' & sent & Heq).
  rewrite Heq in Hpost. injection Hpost as _ <- _.
  eexists. split; [reflexivity|]. split; [reflexivity|]. simpl. split_and!.
  - intros env2 params2 location2 w2 s2 Hpost2.
    destruct (checkout_confirmed_eq translations py_format format_2f env2
                params2 w s _ _ _ _ Hpost2) as (csv2 & sent2 & Heq2).
    rewrite Heq2 in Hpost2. injection Hpost2 as _ <- _.
    eexists. split; reflexivity.
  - intros s0 Hpage.
    destruct (render_checkout_page _ _ _ Hpage) as (t & Htotal & Hstored & Hsame & _).
    by rewrite Hsame, Htotal, Hstored.
  - intros d0 s0 s1 Hpage Hquiet.
    destruct (render_checkout_page _ _ _ Hpage) as (t & Htotal & Hstored & _).
    by rewrite (quiet_steps_keep_total _ _ Hquiet), Hstored, Htotal.
  - intros env0 params0 w0 s0 location0 w1 s1 Hpost0 Hquiet.
    destruct (checkout_confirmed_eq translations py_format format_2f env0
                params0 w0 s0 _ _ _ _ Hpost0) as (csv0 & sent0 & Heq0).
    rewrite Heq0 in Hpost0. injection Hpost0 as _ _ <-.
    by rewrite (quiet_steps_keep_total _ _ Hquiet).
  - intros Hquiet. by rewrite (quiet_steps_keep_total _ _ Hquiet).
  - apply checkout_total_history.
Qed.

End StoredTotal.

Lemma order_total_is_session_total_witness :
  exists o,
    orders (db (Demo.checkout Demo.env0 Demo.cash_form Demo.world0 Demo.reviewed).1.2)
    = orders (db Demo.world0) ++ [o]
    /\ total o = default 0%float (checkout_total Demo.reviewed).
Proof.
  destruct (order_total_is_session_total
              Site.parse_int Site.no_static
              Demo.no_translations Demo.fill Demo.two_decimals
              Demo.env0 Demo.cash_form Demo.world0 Demo.reviewed
              _ _ _ reviewed_outcome) as (o & Horders & Htotal & _).
  exists o. split; [exact Horders | exact Htotal].
Defined.

